(** * go-fiber-auth-3d: the session-backed authentication workflow of main.go

    A shallow embedding of the request handlers of [main.go] (login,
    registration, the guarded dashboard, logout and the demo seed) over an
    explicit model of the three libraries they call:

    - the [users] table behind gorm/SQLite: a list of rows in primary-key
      order, a unique index on [Email], an auto-assigned [ID];
    - the fiber session store with its default in-memory storage: a finite
      map from session id to payload and absolute expiry;
    - bcrypt, kept abstract as an interface (class [Bcrypt]).

    What a handler cannot control (the clock, the randomness of the salt and
    of the session key generator, a failing SQL statement) is passed to it as
    an [Env].  Requests are served one at a time, each at one clock reading. *)

From Stdlib Require Import Ascii String.
From stdpp Require Import gmap strings list.


(** ** Data model *)

(** [type User struct] (gorm model; [Email] carries a unique index). *)
Record User := mkUser {
  ID : N;
  Email : string;
  Phone : string;
  Password : string;
  CreatedAt : N
}.

(** Errors the libraries hand back to the handlers. *)
Inductive error :=
| ErrRecordNotFound      (* gorm.ErrRecordNotFound *)
| ErrUniqueConstraint    (* UNIQUE constraint failed: users.email *)
| ErrStoreUnavailable    (* any other failure of the SQL statement *)
| ErrSessionDecode.      (* session.Store.Get could not load the payload *)

Inductive result (A : Type) :=
| Ok (a : A)
| Err (e : error).
Arguments Ok {A} a.
Arguments Err {A} e.

Definition is_nil_error {A} (r : result A) : bool :=
  match r with Ok _ => true | Err _ => false end.

(** The environment of one handler invocation. *)
Record Env := mkEnv {
  now : N;              (* clock reading, in seconds *)
  entropy : string;     (* random bytes consumed by bcrypt for the salt *)
  session_key : string; (* next output of the store's KeyGenerator, a UUID *)
  find_err : bool;      (* the SELECT of this request fails *)
  create_err : bool;    (* the INSERT of this request fails before the index check *)
  count_err : bool      (* the counting SELECT fails *)
}.

(** ** golang.org/x/crypto/bcrypt, as an interface *)

Class Bcrypt := {
  (* GenerateFromPassword(password, cost), from the random bytes given first:
     [None] stands for a non-nil error *)
  GenerateFromPassword : string -> string -> N -> option string;
  (* CompareHashAndPassword(hash, password): [true] stands for a nil error *)
  CompareHashAndPassword : string -> string -> bool
}.

Definition DefaultCost : N := 10.

(** ** The static markup around the single [%s] verb of each page template *)

Class Templates := {
  loginPageHead : string;
  loginPageTail : string;
  registerPageHead : string;
  registerPageTail : string;
  dashboardHead : string;
  dashboardTail : string
}.

(** ** gorm over the [users] table *)

Definition email_is (email : string) (u : User) : bool :=
  bool_decide (Email u = email).

(** The row [WHERE email = ? ORDER BY id LIMIT 1] selects. *)
Definition select_by_email (rows : list User) (email : string) : option User :=
  List.find (email_is email) rows.

(** [db.Where("email = ?", email).First(&user)] *)
Definition db_First (env : Env) (rows : list User) (email : string) : result User :=
  if find_err env then Err ErrStoreUnavailable
  else match select_by_email rows email with
       | Some u => Ok u
       | None => Err ErrRecordNotFound
       end.

(** The identifier SQLite assigns to the next inserted row. *)
Definition next_id (rows : list User) : N :=
  N.succ (foldr N.max 0%N (ID <$> rows)).

(** [db.Create(&user)] for a [user] whose [ID] is zero: the row is appended
    with a fresh [ID] and the creation time, unless the statement fails or
    the unique index on [Email] rejects it. *)
Definition db_Create (env : Env) (rows : list User) (u : User)
  : list User * result User :=
  if create_err env then (rows, Err ErrStoreUnavailable)
  else if existsb (email_is (Email u)) rows then (rows, Err ErrUniqueConstraint)
  else
    let u' := mkUser (next_id rows) (Email u) (Phone u) (Password u) (now env) in
    (rows ++ [u'], Ok u').

(** [db.Model(&User{}).Count(&count)]: [count] keeps its zero value when the
    statement fails. *)
Definition db_Count (env : Env) (rows : list User) : N :=
  if count_err env then 0%N else N.of_nat (length rows).

(** ** fiber's session middleware with the in-memory storage *)

(** A value stored in the session payload ([interface{}]). *)
Inductive Value :=
| VUint (n : N)
| VString (s : string).

Record entry := mkEntry {
  payload : gmap string Value;
  expiry : N
}.

(** [session.Config{Expiration: 24 * time.Hour}], in seconds. *)
Definition Expiration : N := 86400.

(** memory.Storage.Get: an expired entry reads as an absent one.  (The
    storage counts seconds in 32 bits; the model does not wrap them.) *)
Definition storage_Get (s : gmap string entry) (t : N) (id : string)
  : option (gmap string Value) :=
  match s !! id with
  | Some e =>
      if negb (expiry e =? 0)%N && (expiry e <=? t)%N then None
      else Some (payload e)
  | None => None
  end.

Record Session := mkSession {
  sess_id : string;
  sess_data : gmap string Value
}.

(** The request as the handlers read it. *)
Record Ctx := mkCtx {
  FormValues : gmap string string;
  Cookies : gmap string string
}.

(** [c.FormValue(key)] and [c.Cookies(key)]: the empty string when absent. *)
Definition FormValue (c : Ctx) (key : string) : string :=
  default EmptyString (FormValues c !! key).

Definition Cookie (c : Ctx) (key : string) : string :=
  default EmptyString (Cookies c !! key).

Definition sessionName : string := "session_id".

(** main.go does not pin the version of fiber.  Up to v2.52.4 a request
    whose cookie names no stored session is served under the id the client
    sent; from v2.52.5 on it is served under a newly generated id.  The
    model leaves the choice open. *)
Class SessionLib := {
  keeps_client_id : bool
}.

(** The payload the storage holds, alive, for the session cookie of the
    request; [None] without a cookie, for an unknown id and for an expired
    one. *)
Definition live_session (s : gmap string entry) (env : Env) (c : Ctx)
  : option (gmap string Value) :=
  if bool_decide (Cookie c sessionName = EmptyString) then None
  else storage_Get s (now env) (Cookie c sessionName).

(** [store.Get(c)]: the session named by the cookie with its payload when
    the storage holds it alive, and an empty session otherwise (under a
    newly generated id when the request carries no cookie).  With the
    in-memory storage and the payloads this program saves no load fails, so
    the result is always [Ok]. *)
Definition store_Get `{SessionLib} (s : gmap string entry) (env : Env) (c : Ctx)
  : result Session :=
  let id := Cookie c sessionName in
  match live_session s env c with
  | Some d => Ok (mkSession id d)
  | None =>
      if negb (bool_decide (id = EmptyString)) && keeps_client_id
      then Ok (mkSession id ∅)
      else Ok (mkSession (session_key env) ∅)
  end.

(** [sess.Get(key)]: [None] is Go's nil. *)
Definition sess_Get (sess : Session) (key : string) : option Value :=
  sess_data sess !! key.

Definition sess_Set (sess : Session) (key : string) (v : Value) : Session :=
  mkSession (sess_id sess) (<[key := v]> (sess_data sess)).

(** [sess.Save()]: the payload is stored under the session id with an
    absolute expiry.  (The storage ignores an empty key; the ids saved here
    are a cookie value tested non-empty or a generated UUID.  The storage
    adds the duration to a 32-bit clock: the sum below is the expiry it
    stores as long as [Expiration + now env < 2^32]; see [sess_Save_uint32]
    for the wrapping sum.) *)
Definition sess_Save (s : gmap string entry) (env : Env) (sess : Session)
  : gmap string entry :=
  <[sess_id sess := mkEntry (sess_data sess) (Expiration + now env)]> s.

(** [sess.Destroy()] *)
Definition sess_Destroy (s : gmap string entry) (sess : Session)
  : gmap string entry :=
  delete (sess_id sess) s.

(** ** Responses *)

Inductive Reply :=
| Redirect (location : string)   (* c.Redirect(location) *)
| Html (page : string)           (* c.Type("html"); c.SendString(page) *)
| NotRouted                      (* no route of main() matches *)
| Panic.                         (* nil dereference or failed type assertion *)

(** What the response does to the session cookie. *)
Inductive CookieOp :=
| KeepCookie
| SetCookie (id : string)        (* written by sess.Save() *)
| ExpireCookie.                  (* written by sess.Destroy() *)

Record Response := mkResponse {
  reply : Reply;
  cookie : CookieOp
}.

(** The two process-wide variables of main.go. *)
Record State := mkState {
  db : list User;
  store : gmap string entry
}.

(** A request as the router sees it: [path] is the path fiber matches the
    routes against (with the default configuration: lower-cased, trailing
    slashes removed); [GET] also stands for HEAD, which [app.Get] registers
    as well. *)
Inductive Method := GET | POST.

Record Request := mkRequest {
  method : Method;
  path : string;
  ctx : Ctx
}.

Definition Handler := State -> Env -> Ctx -> State * Response.

Section Handlers.

Context `{hasher : Bcrypt} `{sessions : SessionLib} `{pages : Templates}.

(** ** Page rendering *)

Definition dquote : string := String "034"%char EmptyString.

(** The [<div class="error-shake ...">%s</div>] wrapper of both forms. *)
Definition errorDiv (errorMsg : string) : string :=
  "<div class=" +:+ dquote
  +:+ "error-shake bg-red-500/20 border border-red-500/50 text-red-200 px-4 py-3 rounded-xl mb-6 backdrop-blur-sm"
  +:+ dquote +:+ ">" +:+ errorMsg +:+ "</div>".

Definition renderLoginPage (errorMsg : string) : string :=
  let errorHTML :=
    if bool_decide (errorMsg = EmptyString) then EmptyString
    else errorDiv errorMsg in
  loginPageHead +:+ errorHTML +:+ loginPageTail.

Definition renderRegisterPage (errorMsg : string) : string :=
  let errorHTML :=
    if bool_decide (errorMsg = EmptyString) then EmptyString
    else errorDiv errorMsg in
  registerPageHead +:+ errorHTML +:+ registerPageTail.

Definition renderDashboard (email : string) : string :=
  dashboardHead +:+ email +:+ dashboardTail.

(** ** Bootstrap *)

Definition demoEmail : string := "demo@glassauth.io".
Definition demoPassword : string := "demo2024".

(** [seedDemoUser()]: both errors are dropped by the source; a failed hash
    leaves the nil slice, whose string conversion is empty. *)
Definition seedDemoUser (env : Env) (rows : list User) : list User :=
  let count := db_Count env rows in
  if (count =? 0)%N then
    let hash := GenerateFromPassword (entropy env) demoPassword DefaultCost in
    fst (db_Create env rows
           (mkUser 0 demoEmail "+1 (555) 987-6543" (default EmptyString hash) 0))
  else rows.

(** ** Handlers *)

Definition respond (r : Reply) : Response := mkResponse r KeepCookie.

Definition authRequired (next : Handler) : Handler := fun st env c =>
  match store_Get (store st) env c with
  | Err _ => (st, respond (Redirect "/login"))
  | Ok sess =>
      match sess_Get sess "userID" with
      | None => (st, respond (Redirect "/login"))
      | Some _ => next st env c
      end
  end.

Definition handleIndex : Handler := fun st env c =>
  (st, respond (Redirect "/login")).

Definition handleLoginPage : Handler := fun st env c =>
  (st, respond (Html (renderLoginPage EmptyString))).

Definition handleLogin : Handler := fun st env c =>
  let email := FormValue c "email" in
  let password := FormValue c "password" in
  match db_First env (db st) email with
  | Err _ => (st, respond (Html (renderLoginPage "Invalid credentials")))
  | Ok user =>
      if negb (CompareHashAndPassword (Password user) password) then
        (st, respond (Html (renderLoginPage "Invalid credentials")))
      else
        match store_Get (store st) env c with
        | Err _ => (st, respond Panic)
        | Ok sess =>
            let sess := sess_Set sess "userID" (VUint (ID user)) in
            let sess := sess_Set sess "userEmail" (VString (Email user)) in
            (mkState (db st) (sess_Save (store st) env sess),
             mkResponse (Redirect "/dashboard") (SetCookie (sess_id sess)))
        end
  end.

Definition handleRegisterPage : Handler := fun st env c =>
  (st, respond (Html (renderRegisterPage EmptyString))).

Definition handleRegister : Handler := fun st env c =>
  let email := FormValue c "email" in
  let password := FormValue c "password" in
  let confirmPassword := FormValue c "confirm_password" in
  if negb (bool_decide (password = confirmPassword)) then
    (st, respond (Html (renderRegisterPage "Passwords do not match")))
  else if String.length password <? 6 then
    (st, respond (Html (renderRegisterPage "Password must be at least 6 characters")))
  else if is_nil_error (db_First env (db st) email) then
    (st, respond (Html (renderRegisterPage "Email already registered")))
  else
    match GenerateFromPassword (entropy env) password DefaultCost with
    | None => (st, respond (Html (renderRegisterPage "Registration failed")))
    | Some hash =>
        let user := mkUser 0 email EmptyString hash 0 in
        match db_Create env (db st) user with
        | (rows, Err _) =>
            (mkState rows (store st),
             respond (Html (renderRegisterPage "Registration failed")))
        | (rows, Ok user) =>
            match store_Get (store st) env c with
            | Err _ => (mkState rows (store st), respond Panic)
            | Ok sess =>
                let sess := sess_Set sess "userID" (VUint (ID user)) in
                let sess := sess_Set sess "userEmail" (VString (Email user)) in
                (mkState rows (sess_Save (store st) env sess),
                 mkResponse (Redirect "/dashboard") (SetCookie (sess_id sess)))
            end
        end
    end.

Definition handleDashboard : Handler := fun st env c =>
  match store_Get (store st) env c with
  | Err _ => (st, respond Panic)
  | Ok sess =>
      match sess_Get sess "userEmail" with
      | Some (VString email) => (st, respond (Html (renderDashboard email)))
      | _ => (st, respond Panic)
      end
  end.

Definition handleLogout : Handler := fun st env c =>
  match store_Get (store st) env c with
  | Err _ => (st, respond Panic)
  | Ok sess =>
      (mkState (db st) (sess_Destroy (store st) sess),
       mkResponse (Redirect "/login") ExpireCookie)
  end.

(** ** The routes of [main()] *)

Definition route (m : Method) (p : string) : option Handler :=
  match m with
  | GET =>
      if bool_decide (p = "/") then Some handleIndex
      else if bool_decide (p = "/login") then Some handleLoginPage
      else if bool_decide (p = "/register") then Some handleRegisterPage
      else if bool_decide (p = "/dashboard") then Some (authRequired handleDashboard)
      else None
  | POST =>
      if bool_decide (p = "/login") then Some handleLogin
      else if bool_decide (p = "/register") then Some handleRegister
      else if bool_decide (p = "/logout") then Some handleLogout
      else None
  end.

Definition serve (st : State) (env : Env) (r : Request) : State * Response :=
  match route (method r) (path r) with
  | Some h => h st env (ctx r)
  | None => (st, respond NotRouted)
  end.

(** [main()] up to [app.Listen]: the table found in auth.db is seeded and the
    session store starts empty. *)
Definition boot (env : Env) (rows : list User) : State :=
  mkState (seedDemoUser env rows) ∅.

(** A run of the server: the requests are served one after the other. *)
Fixpoint run (st : State) (reqs : list (Env * Request)) : State :=
  match reqs with
  | [] => st
  | (env, r) :: reqs => run (fst (serve st env r)) reqs
  end.

Inductive reachable : State -> Prop :=
| reachable_boot env rows : reachable (boot env rows)
| reachable_serve st env r :
    reachable st -> reachable (fst (serve st env r)).

End Handlers.

(** ** Concrete instances and requests, to run the handlers

    The theorems below hold for every [Bcrypt], [SessionLib] and
    [Templates]; the stand-in hasher (an unsalted tag in front of the
    password, refusing more than 72 bytes as bcrypt does) only serves to
    evaluate the model. *)

Definition sample_bcrypt : Bcrypt := {|
  GenerateFromPassword _ password _ :=
    if 72 <? String.length password then None
    else Some ("$2a$10$" +:+ password);
  CompareHashAndPassword hash password :=
    bool_decide (hash = "$2a$10$" +:+ password)
|}.

Definition sample_sessions : SessionLib := {| keeps_client_id := false |}.

Definition sample_templates : Templates := {|
  loginPageHead := "<html><body><form action=/login>";
  loginPageTail := "</form></body></html>";
  registerPageHead := "<html><body><form action=/register>";
  registerPageTail := "</form></body></html>";
  dashboardHead := "<html><body><span class=user-email>";
  dashboardTail := "</span></body></html>"
|}.

(** An environment in which every SQL statement goes through. *)
Definition quiet (t : N) (key : string) : Env :=
  mkEnv t "salt" key false false false.

(** Environments in which the lookup, respectively the insert, fails. *)
Definition lookup_fails (t : N) (key : string) : Env :=
  mkEnv t "salt" key true false false.

Definition insert_fails (t : N) (key : string) : Env :=
  mkEnv t "salt" key false true false.

Definition form (fields : list (string * string)) (session : string) : Ctx :=
  mkCtx (list_to_map fields)
        (if bool_decide (session = EmptyString) then ∅
         else {[ sessionName := session ]}).

Definition register_form (email password confirm session : string) : Ctx :=
  form [("email", email); ("password", password); ("confirm_password", confirm)]
       session.

Definition login_form (email password session : string) : Ctx :=
  form [("email", email); ("password", password)] session.

(** The server right after bootstrap on an empty auth.db. *)
Definition sample_state : State :=
  boot (hasher := sample_bcrypt) (quiet 0 "k0") [].

(** The state after [a@b.com] registered and was given the session [tok1]. *)
Definition registered_state : State :=
  fst (serve (hasher := sample_bcrypt) (sessions := sample_sessions)
         (pages := sample_templates) sample_state (quiet 10 "tok1")
         (mkRequest POST "/register"
            (register_form "a@b.com" "secret6" "secret6" EmptyString))).

(** ** Characters and bytes

    Go strings are byte strings and [len] counts bytes; form values arrive
    UTF-8 encoded, so a character takes one to four bytes. *)

(** A byte [10xxxxxx] continues a character. *)
Definition utf8_continuation (a : ascii) : bool :=
  match a with
  | Ascii _ _ _ _ _ _ b6 b7 => b7 && negb b6
  end.

(** The number of characters of a UTF-8 encoded string: the bytes that start
    one. *)
Fixpoint utf8_length (s : string) : nat :=
  match s with
  | EmptyString => 0
  | String a s => (if utf8_continuation a then 0 else 1) + utf8_length s
  end.

(** A byte below 128. *)
Definition is_ascii (a : ascii) : bool :=
  match a with
  | Ascii _ _ _ _ _ _ _ b7 => negb b7
  end.

Fixpoint all_ascii (s : string) : bool :=
  match s with
  | EmptyString => true
  | String a s => is_ascii a && all_ascii s
  end.



(** * Vocabulary of the statements *)

Section Vocabulary.

Context `{hasher : Bcrypt} `{sessions : SessionLib} `{pages : Templates}.

(** No stored user has this email. *)
Definition unknown_email (rows : list User) (email : string) : Prop :=
  Forall (fun u => Email u <> email) rows.

(** The id of the session [store.Get] hands to the handler. *)
Definition token (st : State) (env : Env) (c : Ctx) : string :=
  match live_session (store st) env c with
  | Some _ => Cookie c sessionName
  | None =>
      if negb (bool_decide (Cookie c sessionName = EmptyString)) && keeps_client_id
      then Cookie c sessionName
      else session_key env
  end.

(** The payload [store.Get] loads for a request. *)
Definition loaded (st : State) (env : Env) (c : Ctx) : gmap string Value :=
  default ∅ (live_session (store st) env c).

Definition loginFailure : Response :=
  respond (Html (renderLoginPage "Invalid credentials")).

Definition registerFailure (msg : string) : Response :=
  respond (Html (renderRegisterPage msg)).

(** Both form validations of [handleRegister] pass. *)
Definition valid_form (c : Ctx) : Prop :=
  FormValue c "password" = FormValue c "confirm_password"
  /\ 6 <= String.length (FormValue c "password").

(** A valid form, a hash that is generated and an insert that is not failed
    by the store. *)
Definition valid_registration (r : Env * Ctx) : Prop :=
  valid_form (snd r)
  /\ create_err (fst r) = false
  /\ is_Some (GenerateFromPassword (entropy (fst r))
                (FormValue (snd r) "password") DefaultCost).

(** The row and the session a login or a registration writes. *)
Definition new_user (st : State) (env : Env) (c : Ctx) (hash : string) : User :=
  mkUser (next_id (db st)) (FormValue c "email") EmptyString hash (now env).

Definition new_session (st : State) (env : Env) (c : Ctx) (u : User) : entry :=
  mkEntry (<["userEmail" := VString (Email u)]>
             (<["userID" := VUint (ID u)]> (loaded st env c)))
          (Expiration + now env).

(** What a successful registration answers and leaves behind. *)
Definition registered (st : State) (env : Env) (c : Ctx) : Prop :=
  exists user d,
    snd (handleRegister st env c)
      = mkResponse (Redirect "/dashboard") (SetCookie (token st env c))
    /\ db (fst (handleRegister st env c)) = db st ++ [user]
    /\ Email user = FormValue c "email"
    /\ Forall (fun v => (ID v < ID user)%N) (db st)
    /\ storage_Get (store (fst (handleRegister st env c))) (now env) (token st env c)
         = Some d
    /\ d !! "userID" = Some (VUint (ID user))
    /\ d !! "userEmail" = Some (VString (FormValue c "email")).

(** Every registration of a sequence succeeds, each served after the ones
    before it. *)
Fixpoint all_registered (st : State) (regs : list (Env * Ctx)) : Prop :=
  match regs with
  | [] => True
  | r :: regs =>
      registered st (fst r) (snd r)
      /\ all_registered (fst (handleRegister st (fst r) (snd r))) regs
  end.


(** The request carries no session cookie, or its token is unknown to the
    storage, or the session stored under it has expired. *)
Definition no_live_session (st : State) (env : Env) (c : Ctx) : Prop :=
  Cookie c sessionName = EmptyString
  \/ store st !! Cookie c sessionName = None
  \/ exists e, store st !! Cookie c sessionName = Some e
              /\ (0 < expiry e <= now env)%N.

(** The payload names a stored user by identifier and by email. *)
Definition session_of_user (rows : list User) (d : gmap string Value) : Prop :=
  exists u, u ∈ rows
    /\ d !! "userID" = Some (VUint (ID u))
    /\ d !! "userEmail" = Some (VString (Email u)).

Definition sessions_ok (st : State) : Prop :=
  forall id e, store st !! id = Some e -> session_of_user (db st) (payload e).

Definition contains (page s : string) : Prop :=
  exists before after, page = before +:+ s +:+ after.

(** No response of the run sets the session cookie to [t]. *)
Fixpoint never_issued (t : string) (st : State) (reqs : list (Env * Request))
  : Prop :=
  match reqs with
  | [] => True
  | q :: reqs =>
      cookie (snd (serve st (fst q) (snd q))) <> SetCookie t
      /\ never_issued t (fst (serve st (fst q) (snd q))) reqs
  end.

(** The row [seedDemoUser] inserts into an empty table. *)
Definition demoUser (hash : string) (t : N) : User :=
  mkUser 1 demoEmail "+1 (555) 987-6543" hash t.

End Vocabulary.

(** * Properties *)

(** ** Strings *)

Lemma append_cons (a : ascii) (s t : string) :
  String a s +:+ t = String a (s +:+ t).
Proof. reflexivity. Qed.

Lemma append_length (s t : string) :
  String.length (s +:+ t) = String.length s + String.length t.
Proof.
  induction s as [|a s IH]; [done|].
  rewrite append_cons. cbn. by rewrite IH.
Qed.

Lemma append_cancel_r (s1 s2 t : string) :
  s1 +:+ t = s2 +:+ t -> s1 = s2.
Proof.
  revert s2. induction s1 as [|a s1 IH]; intros [|b s2] E.
  - done.
  - apply (f_equal String.length) in E.
    rewrite !append_length in E. cbn in E. lia.
  - apply (f_equal String.length) in E.
    rewrite !append_length in E. cbn in E. lia.
  - rewrite !append_cons in E. injection E as -> E. f_equal. by apply IH.
Qed.

(** Characters and bytes agree on ASCII strings. *)
Lemma utf8_length_ascii (s : string) :
  all_ascii s = true -> utf8_length s = String.length s.
Proof.
  induction s as [|a s IH]; [done|]. cbn.
  intros [Ha Hs]%andb_true_iff. rewrite (IH Hs).
  destruct a as [b0 b1 b2 b3 b4 b5 b6 b7]. cbn in *.
  by apply negb_true_iff in Ha as ->.
Qed.

(** ** The table *)

Lemma select_unknown rows email :
  unknown_email rows email -> select_by_email rows email = None.
Proof.
  unfold select_by_email.
  induction 1 as [|u rows Hu _ IH]; cbn; [done|].
  unfold email_is at 1. by rewrite bool_decide_eq_false_2.
Qed.

Lemma existsb_unknown rows email :
  unknown_email rows email -> existsb (email_is email) rows = false.
Proof.
  induction 1 as [|u rows Hu _ IH]; cbn; [done|].
  unfold email_is at 1. by rewrite bool_decide_eq_false_2.
Qed.

Lemma select_email rows email u :
  select_by_email rows email = Some u -> u ∈ rows /\ Email u = email.
Proof.
  intros Hf. apply find_some in Hf as [Hin He].
  split; [by apply list_elem_of_In|].
  unfold email_is in He. by apply bool_decide_eq_true in He.
Qed.

Lemma existsb_known rows email u :
  u ∈ rows -> Email u = email -> existsb (email_is email) rows = true.
Proof.
  intros Hin He. apply existsb_exists. exists u.
  split; [by apply list_elem_of_In|].
  unfold email_is. by apply bool_decide_eq_true.
Qed.

Lemma select_known rows email u :
  u ∈ rows -> Email u = email ->
  exists v, select_by_email rows email = Some v.
Proof.
  intros Hin He.
  destruct (select_by_email rows email) as [v|] eqn:Hf; [by exists v|].
  apply list_elem_of_In in Hin.
  pose proof (find_none _ _ Hf _ Hin) as Hn.
  unfold email_is in Hn. apply bool_decide_eq_false in Hn. done.
Qed.

(** A freshly assigned identifier is above every identifier in the table. *)
Lemma next_id_fresh rows :
  Forall (fun v => (ID v < next_id rows)%N) rows.
Proof.
  unfold next_id. induction rows as [|u rows IH]; [constructor|].
  cbn. constructor; [lia|].
  eapply Forall_impl; [exact IH|]. cbn. intros v Hv. lia.
Qed.

(** What [db.Create] does to the table: nothing when it fails; otherwise it
    appends the row it returns, under the email it was given. *)
Lemma db_Create_cases env rows u :
  (exists e, db_Create env rows u = (rows, Err e))
  \/ (exists u', db_Create env rows u = (rows ++ [u'], Ok u')
               /\ Email u' = Email u /\ ID u' = next_id rows
               /\ unknown_email rows (Email u)).
Proof.
  unfold db_Create. destruct (create_err env); [left; by eexists|].
  destruct (existsb _ rows) eqn:Hex; [left; by eexists|].
  right. eexists. repeat split.
  apply Forall_forall. intros v Hv He.
  by rewrite (existsb_known rows (Email u) v Hv He) in Hex.
Qed.

(** The unique index: no insert makes two rows share an email. *)
Lemma db_Create_unique env rows u :
  NoDup (Email <$> rows) -> NoDup (Email <$> fst (db_Create env rows u)).
Proof.
  intros Hnd.
  destruct (db_Create_cases env rows u)
    as [[e ->]|(u' & -> & He & _ & Hu)]; [done|].
  cbn. rewrite fmap_app. apply NoDup_app. split; [done|]. split.
  - intros x Hx Hx'. apply list_elem_of_singleton in Hx' as ->.
    apply list_elem_of_fmap in Hx as (v & Hv & Hin).
    eapply Forall_forall in Hu; [|exact Hin]. congruence.
  - apply NoDup_singleton.
Qed.

(** ** The session storage *)

(** A session read back at the clock reading it was saved at is live. *)
Lemma storage_Get_saved s t id d :
  storage_Get (<[id := mkEntry d (Expiration + t)]> s) t id = Some d.
Proof.
  unfold storage_Get. rewrite lookup_insert_eq. cbn.
  replace (Expiration + t <=? t)%N with false; [by rewrite andb_false_r|].
  symmetry. apply N.leb_gt. unfold Expiration. lia.
Qed.

Lemma live_session_stored s env c d :
  live_session s env c = Some d ->
  exists e, s !! Cookie c sessionName = Some e /\ payload e = d.
Proof.
  unfold live_session, storage_Get. case_bool_decide; [done|].
  destruct (s !! _) as [e|]; [|done].
  destruct (_ && _); [done|]. intros [= <-]. by exists e.
Qed.

Lemma live_session_None st env c :
  live_session (store st) env c = None <-> no_live_session st env c.
Proof.
  unfold live_session, no_live_session, storage_Get.
  case_bool_decide as Hc; [by split; [left|]|].
  destruct (store st !! Cookie c sessionName) as [e|]; [|by split; [right; left|]].
  destruct (negb (expiry e =? 0)%N && (expiry e <=? now env)%N) eqn:Hexp.
  - split; [|done]. intros _. right; right. exists e. split; [done|].
    apply andb_true_iff in Hexp as [Hz Hle].
    apply negb_true_iff, N.eqb_neq in Hz. apply N.leb_le in Hle. lia.
  - split; [done|]. intros [?|[?|(e' & [= <-] & Hz & Hle)]]; [done..|].
    apply andb_false_iff in Hexp as [Hz'|Hle'].
    + apply negb_false_iff, N.eqb_eq in Hz'. lia.
    + apply N.leb_gt in Hle'. lia.
Qed.

Lemma live_session_absent s env c :
  s !! Cookie c sessionName = None -> live_session s env c = None.
Proof.
  intros Hs. unfold live_session, storage_Get.
  case_bool_decide; [done|]. by rewrite Hs.
Qed.

Section Properties.

Context `{hasher : Bcrypt} `{sessions : SessionLib} `{pages : Templates}.

(** ** Rendering is injective in the message *)

Lemma errorDiv_inj m1 m2 : errorDiv m1 = errorDiv m2 -> m1 = m2.
Proof.
  unfold errorDiv. intros E.
  repeat (apply String.app_inj in E).
  by apply append_cancel_r in E.
Qed.

Lemma errorDiv_nonempty m : errorDiv m <> EmptyString.
Proof. unfold errorDiv. cbv [String.append]. discriminate. Qed.

Lemma errorHTML_inj m1 m2 :
  (if bool_decide (m1 = EmptyString) then EmptyString else errorDiv m1)
  = (if bool_decide (m2 = EmptyString) then EmptyString else errorDiv m2) ->
  m1 = m2.
Proof.
  pose proof (errorDiv_nonempty m1). pose proof (errorDiv_nonempty m2).
  repeat case_bool_decide; intros E; subst; try congruence.
  by apply errorDiv_inj.
Qed.

Lemma renderLoginPage_inj m1 m2 :
  renderLoginPage m1 = renderLoginPage m2 -> m1 = m2.
Proof.
  unfold renderLoginPage. intros E.
  apply String.app_inj, append_cancel_r in E. by apply errorHTML_inj.
Qed.

Lemma renderRegisterPage_inj m1 m2 :
  renderRegisterPage m1 = renderRegisterPage m2 -> m1 = m2.
Proof.
  unfold renderRegisterPage. intros E.
  apply String.app_inj, append_cancel_r in E. by apply errorHTML_inj.
Qed.

(** ** What [store.Get] returns *)

Lemma store_Get_Ok st env c :
  store_Get (store st) env c = Ok (mkSession (token st env c) (loaded st env c)).
Proof.
  unfold store_Get, token, loaded.
  destruct (live_session (store st) env c); [done|].
  by destruct (_ && _).
Qed.

Lemma token_live st env c d :
  live_session (store st) env c = Some d -> token st env c = Cookie c sessionName.
Proof. intros Hl. unfold token. by rewrite Hl. Qed.

(** ** Login *)

Lemma handleLogin_unknown st env c :
  unknown_email (db st) (FormValue c "email") ->
  handleLogin st env c = (st, loginFailure).
Proof.
  intros Hu. unfold handleLogin, db_First.
  destruct (find_err env); [done|]. by rewrite (select_unknown _ _ Hu).
Qed.

Lemma handleLogin_wrong_password st env c u :
  select_by_email (db st) (FormValue c "email") = Some u ->
  CompareHashAndPassword (Password u) (FormValue c "password") = false ->
  handleLogin st env c = (st, loginFailure).
Proof.
  intros Hf Hc. unfold handleLogin, db_First.
  destruct (find_err env); [done|]. by rewrite Hf, Hc.
Qed.

Lemma handleLogin_cases st env c :
  handleLogin st env c = (st, loginFailure)
  \/ exists u, u ∈ db st
       /\ select_by_email (db st) (FormValue c "email") = Some u
       /\ CompareHashAndPassword (Password u) (FormValue c "password") = true
       /\ handleLogin st env c =
            (mkState (db st) (<[token st env c := new_session st env c u]> (store st)),
             mkResponse (Redirect "/dashboard") (SetCookie (token st env c))).
Proof.
  unfold handleLogin, db_First.
  destruct (find_err env); [by left|].
  destruct (select_by_email _ _) as [u|] eqn:Hf; [|by left].
  destruct (CompareHashAndPassword _ _) eqn:Hc; [|by left].
  right. exists u. split; [by apply select_email in Hf as [? _]|].
  by rewrite store_Get_Ok.
Qed.

(** ** Registration *)

Lemma handleRegister_mismatch st env c :
  FormValue c "password" <> FormValue c "confirm_password" ->
  handleRegister st env c = (st, registerFailure "Passwords do not match").
Proof.
  intros Hne. unfold handleRegister. by rewrite bool_decide_eq_false_2.
Qed.


Lemma handleRegister_duplicate st env c u :
  valid_form c -> find_err env = false ->
  u ∈ db st -> Email u = FormValue c "email" ->
  handleRegister st env c = (st, registerFailure "Email already registered").
Proof.
  intros [He Hl] Hf Hin Hu. unfold handleRegister, db_First.
  rewrite bool_decide_eq_true_2 by done. cbn [negb].
  apply Nat.ltb_ge in Hl as ->. rewrite Hf.
  by destruct (select_known _ _ _ Hin Hu) as [v ->].
Qed.

Lemma handleRegister_success st env c hash :
  valid_form c -> create_err env = false ->
  unknown_email (db st) (FormValue c "email") ->
  GenerateFromPassword (entropy env) (FormValue c "password") DefaultCost
    = Some hash ->
  handleRegister st env c =
    (mkState (db st ++ [new_user st env c hash])
       (<[token st env c := new_session st env c (new_user st env c hash)]>
          (store st)),
     mkResponse (Redirect "/dashboard") (SetCookie (token st env c))).
Proof.
  intros [He Hl] Hc Hu Hh. unfold handleRegister, db_First, db_Create.
  rewrite bool_decide_eq_true_2 by done. cbn [negb].
  apply Nat.ltb_ge in Hl as ->.
  rewrite (select_unknown _ _ Hu), Hh, Hc. cbn [Email].
  rewrite (existsb_unknown _ _ Hu), store_Get_Ok.
  by destruct (find_err env).
Qed.


(** Whatever makes the insert fail, the handler answers the same page. *)
Lemma handleRegister_write_failure st env c hash e :
  valid_form c ->
  is_nil_error (db_First env (db st) (FormValue c "email")) = false ->
  GenerateFromPassword (entropy env) (FormValue c "password") DefaultCost
    = Some hash ->
  snd (db_Create env (db st) (mkUser 0 (FormValue c "email") EmptyString hash 0))
    = Err e ->
  handleRegister st env c = (st, registerFailure "Registration failed").
Proof.
  intros [He Hl] Hf Hh Hc. unfold handleRegister.
  rewrite bool_decide_eq_true_2 by done. cbn [negb].
  apply Nat.ltb_ge in Hl as ->. rewrite Hf, Hh.
  revert Hc. unfold db_Create.
  destruct (create_err env); [by destruct st|].
  destruct (existsb _ _); [by destruct st|]. done.
Qed.

Lemma handleRegister_cases st env c :
  (fst (handleRegister st env c) = st
   /\ cookie (snd (handleRegister st env c)) = KeepCookie
   /\ reply (snd (handleRegister st env c)) <> Panic)
  \/ exists hash,
       handleRegister st env c =
         (mkState (db st ++ [new_user st env c hash])
            (<[token st env c := new_session st env c (new_user st env c hash)]>
               (store st)),
          mkResponse (Redirect "/dashboard") (SetCookie (token st env c))).
Proof.
  unfold handleRegister.
  destruct (negb _); [by left|].
  destruct (_ <? 6); [by left|].
  destruct (is_nil_error _); [by left|].
  destruct (GenerateFromPassword _ _ _) as [hash|]; [|by left].
  unfold db_Create. destruct (create_err env); [left; by destruct st|].
  destruct (existsb _ _); [left; by destruct st|].
  right. exists hash. by rewrite store_Get_Ok.
Qed.

Lemma registered_valid st env c :
  valid_registration (env, c) ->
  unknown_email (db st) (FormValue c "email") ->
  registered st env c.
Proof.
  intros (Hv & Hc & [hash Hh]) Hu. cbn in Hv, Hc, Hh.
  exists (new_user st env c hash),
         (payload (new_session st env c (new_user st env c hash))).
  rewrite (handleRegister_success st env c hash Hv Hc Hu Hh). cbn.
  repeat split.
  - apply next_id_fresh.
  - apply storage_Get_saved.
  - rewrite lookup_insert_ne by done. apply lookup_insert_eq.
  - apply lookup_insert_eq.
Qed.

(** ** The guarded dashboard and logout *)

Lemma handleLogout_eq st env c :
  handleLogout st env c =
    (mkState (db st) (delete (token st env c) (store st)),
     mkResponse (Redirect "/login") ExpireCookie).
Proof. unfold handleLogout. by rewrite store_Get_Ok. Qed.

Lemma dashboard_without_session st env c :
  live_session (store st) env c = None ->
  authRequired handleDashboard st env c = (st, respond (Redirect "/login")).
Proof.
  intros Hl. unfold authRequired. rewrite store_Get_Ok.
  unfold sess_Get, loaded. cbn [sess_data]. by rewrite Hl.
Qed.

Lemma handleDashboard_string st env c email :
  loaded st env c !! "userEmail" = Some (VString email) ->
  handleDashboard st env c = (st, respond (Html (renderDashboard email))).
Proof.
  intros Hemail. unfold handleDashboard. rewrite store_Get_Ok.
  unfold sess_Get. cbn [sess_data]. by rewrite Hemail.
Qed.

Lemma dashboard_with_session st env c d v email :
  live_session (store st) env c = Some d ->
  d !! "userID" = Some v ->
  d !! "userEmail" = Some (VString email) ->
  authRequired handleDashboard st env c
    = (st, respond (Html (renderDashboard email))).
Proof.
  intros Hl Hid Hemail. unfold authRequired.
  rewrite store_Get_Ok. unfold sess_Get, loaded. cbn [sess_data].
  rewrite Hl. cbn. rewrite Hid.
  apply handleDashboard_string. unfold loaded. by rewrite Hl.
Qed.

Lemma guarded_dashboard_state st env c :
  fst (authRequired handleDashboard st env c) = st
  /\ cookie (snd (authRequired handleDashboard st env c)) = KeepCookie.
Proof.
  unfold authRequired, handleDashboard. rewrite store_Get_Ok.
  destruct (sess_Get _ "userID"); [|done].
  by destruct (sess_Get _ "userEmail") as [[]|].
Qed.

(** ** One request, case by case *)

(** What a request can do to the state: nothing, save a session for a
    stored user, append a row and save a session for it, or delete a
    session. *)
Lemma serve_cases st env r :
  let st' := fst (serve st env r) in
  let resp := snd (serve st env r) in
  (st' = st /\ cookie resp = KeepCookie)
  \/ (exists u id,
        u ∈ db st /\ db st' = db st /\ cookie resp = SetCookie id /\
        store st' = <[id := new_session st env (ctx r) u]> (store st))
  \/ (exists u id,
        db st' = db st ++ [u] /\ cookie resp = SetCookie id /\
        store st' = <[id := new_session st env (ctx r) u]> (store st))
  \/ (exists id,
        db st' = db st /\ cookie resp = ExpireCookie /\
        store st' = delete id (store st)).
Proof.
  unfold serve, route. destruct r as [m p c]. cbn [method path ctx].
  destruct m; repeat case_bool_decide; cbn zeta; try (by left).
  - left. apply guarded_dashboard_state.
  - destruct (handleLogin_cases st env c) as [->|(u & Hu & _ & _ & ->)]; [by left|].
    right; left. by exists u, (token st env c).
  - destruct (handleRegister_cases st env c) as [(? & ? & _)|(hash & ->)]; [by left|].
    right; right; left. by eexists _, (token st env c).
  - rewrite handleLogout_eq. right; right; right. by exists (token st env c).
Qed.

(** ** Sessions in reachable states *)

Lemma new_session_of_user st env c u rows :
  u ∈ rows -> session_of_user rows (payload (new_session st env c u)).
Proof.
  intros Hu. exists u. split; [done|]. cbn. split.
  - rewrite lookup_insert_ne by done. apply lookup_insert_eq.
  - apply lookup_insert_eq.
Qed.

Lemma session_of_user_app rows l d :
  session_of_user rows d -> session_of_user (rows ++ l) d.
Proof.
  intros (u & Hu & Hd). exists u. split; [|done].
  apply elem_of_app. by left.
Qed.

Lemma serve_sessions_ok st env r :
  sessions_ok st -> sessions_ok (fst (serve st env r)).
Proof.
  intros Hok.
  destruct (serve_cases st env r)
    as [[-> _]|[(u & t & Hu & Hdb & _ & Hs)|[(u & t & Hdb & _ & Hs)|(t & Hdb & _ & Hs)]]];
    [done|..]; intros id e; rewrite Hs, Hdb.
  - destruct (decide (t = id)) as [->|Hne].
    + rewrite lookup_insert_eq. intros [= <-]. by apply new_session_of_user.
    + rewrite lookup_insert_ne by done. apply Hok.
  - destruct (decide (t = id)) as [->|Hne].
    + rewrite lookup_insert_eq. intros [= <-]. apply new_session_of_user.
      apply elem_of_app. right. by apply list_elem_of_singleton.
    + rewrite lookup_insert_ne by done. intros He.
      apply session_of_user_app. by eapply Hok.
  - destruct (decide (t = id)) as [->|Hne].
    + by rewrite lookup_delete_eq.
    + rewrite lookup_delete_ne by done. apply Hok.
Qed.

(** Every session the storage of a running server holds was saved by
    [handleLogin] or [handleRegister], with both fields set from one row. *)
Lemma reachable_sessions_ok st : reachable st -> sessions_ok st.
Proof.
  induction 1 as [env rows|st env r _ IH].
  - intros id e. cbn. by rewrite lookup_empty.
  - by apply serve_sessions_ok.
Qed.

Lemma loaded_session_of_user st env c v :
  sessions_ok st ->
  loaded st env c !! "userID" = Some v ->
  session_of_user (db st) (loaded st env c).
Proof.
  intros Hok. unfold loaded.
  destruct (live_session (store st) env c) as [d|] eqn:Hl; cbn.
  - intros _. destruct (live_session_stored _ _ _ _ Hl) as (e & He & <-).
    by eapply Hok.
  - by rewrite lookup_empty.
Qed.

(** No request makes a running server panic. *)
Lemma serve_never_panics st env r :
  reachable st -> reply (snd (serve st env r)) <> Panic.
Proof.
  intros Hreach. pose proof (reachable_sessions_ok st Hreach) as Hok.
  unfold serve, route. destruct r as [m p c]. cbn [method path ctx].
  destruct m; repeat case_bool_decide; try done.
  - unfold authRequired. rewrite store_Get_Ok. unfold sess_Get. cbn [sess_data].
    destruct (loaded st env c !! "userID") as [v|] eqn:Hid; [|done].
    destruct (loaded_session_of_user st env c v Hok Hid) as (u & _ & _ & He).
    by rewrite (handleDashboard_string st env c _ He).
  - by destruct (handleLogin_cases st env c) as [->|(u & _ & _ & _ & ->)].
  - by destruct (handleRegister_cases st env c) as [(_ & _ & ?)|(hash & ->)].
  - by rewrite handleLogout_eq.
Qed.

(** ** A destroyed session stays away until its id is issued again *)

Lemma serve_keeps_absent t st env r :
  store st !! t = None ->
  cookie (snd (serve st env r)) <> SetCookie t ->
  store (fst (serve st env r)) !! t = None.
Proof.
  intros Habs Hne.
  destruct (serve_cases st env r)
    as [[-> _]|[(u & id & _ & _ & Hc & ->)|[(u & id & _ & Hc & ->)|(id & _ & _ & ->)]]];
    [done|..].
  - rewrite lookup_insert_ne; [done|]. intros ->. by apply Hne.
  - rewrite lookup_insert_ne; [done|]. intros ->. by apply Hne.
  - by apply lookup_delete_None; right.
Qed.

Lemma run_keeps_absent t reqs : forall st,
  store st !! t = None -> never_issued t st reqs ->
  store (run st reqs) !! t = None.
Proof.
  induction reqs as [|[env r] reqs IH]; intros st Habs Hn; [done|].
  destruct Hn as [Hne Hn]. cbn in *. apply IH; [|done].
  by apply serve_keeps_absent.
Qed.

(** * The properties of the specification *)

(** C1: a login whose email matches no stored user and a login whose email
    matches a stored user but whose password fails verification receive the
    same response, the login page re-rendered with [Invalid credentials] and
    no cookie, and neither changes the state. *)
Theorem login_failures_indistinguishable st1 env1 c1 st2 env2 c2 u :
  unknown_email (db st1) (FormValue c1 "email") ->
  select_by_email (db st2) (FormValue c2 "email") = Some u ->
  CompareHashAndPassword (Password u) (FormValue c2 "password") = false ->
  snd (handleLogin st1 env1 c1) = snd (handleLogin st2 env2 c2)
  /\ snd (handleLogin st1 env1 c1)
      = mkResponse (Html (renderLoginPage "Invalid credentials")) KeepCookie
  /\ fst (handleLogin st1 env1 c1) = st1
  /\ fst (handleLogin st2 env2 c2) = st2.
Proof.
  intros Hu Hf Hc.
  rewrite (handleLogin_unknown _ _ _ Hu).
  by rewrite (handleLogin_wrong_password _ _ _ _ Hf Hc).
Qed.


(** C3: on the guarded dashboard route, a request without session cookie or
    whose token names no live session (unknown or expired) is redirected to
    [/login]; while the server runs, a request whose token names a live
    session (saved by an earlier login or registration, for a stored user)
    is served the dashboard page, which contains the email stored in that
    session. *)
Theorem dashboard_requires_live_session st env c :
  (no_live_session st env c ->
     serve st env (mkRequest GET "/dashboard" c)
       = (st, mkResponse (Redirect "/login") KeepCookie))
  /\ (reachable st ->
      forall d, live_session (store st) env c = Some d ->
        exists u, u ∈ db st
          /\ d !! "userID" = Some (VUint (ID u))
          /\ d !! "userEmail" = Some (VString (Email u))
          /\ serve st env (mkRequest GET "/dashboard" c)
              = (st, mkResponse (Html (renderDashboard (Email u))) KeepCookie)
          /\ contains (renderDashboard (Email u)) (Email u)).
Proof.
  split.
  - intros Hno. by apply dashboard_without_session, live_session_None.
  - intros Hreach d Hl.
    destruct (live_session_stored _ _ _ _ Hl) as (e & He & <-).
    destruct (reachable_sessions_ok st Hreach _ _ He) as (u & Hu & Hid & Hemail).
    exists u. repeat split; try done.
    + by apply (dashboard_with_session st env c _ _ _ Hl Hid Hemail).
    + by exists dashboardHead, dashboardTail.
Qed.

(** C4: every valid registration (confirmation matches, at least 6 bytes
    of password, email not yet stored, hashing and insert succeed) is
    answered with a redirect to [/dashboard] and leaves a new row and a live
    session whose [userEmail] is the registered email and whose [userID] is
    the identifier of the new row; in a sequence of valid registrations with
    pairwise distinct new emails each one succeeds this way. *)
Theorem register_valid_succeeds st regs :
  Forall valid_registration regs ->
  Forall (fun r => unknown_email (db st) (FormValue (snd r) "email")) regs ->
  NoDup ((fun r => FormValue (snd r) "email") <$> regs) ->
  all_registered st regs.
Proof.
  intros Hvalid. revert st.
  induction Hvalid as [|[env c] regs Hv _ IH]; intros st Hnew Hdup; [done|].
  apply Forall_cons in Hnew as [Hu Hnew]. cbn in Hu.
  rewrite fmap_cons in Hdup. apply NoDup_cons in Hdup as [Hnotin Hdup].
  cbn in Hnotin. cbn [all_registered fst snd].
  pose proof (registered_valid st env c Hv Hu) as Hreg.
  split; [exact Hreg|].
  destruct Hreg as (user & d & _ & Hdb & Hemail & _).
  apply IH; [|exact Hdup].
  rewrite Hdb. apply Forall_forall. intros r Hr.
  apply Forall_app. split.
  - by eapply Forall_forall in Hnew.
  - apply Forall_singleton. rewrite Hemail. intros E. apply Hnotin.
    rewrite E. apply list_elem_of_fmap. by exists r.
Qed.

(** C5: a registration whose password differs from its confirmation is
    answered with the register page carrying [Passwords do not match] (a
    page no other message renders to); the table and the session store are
    left as they were and no cookie is set. *)
Theorem register_mismatch_no_write st env c :
  FormValue c "password" <> FormValue c "confirm_password" ->
  handleRegister st env c
    = (st, mkResponse (Html (renderRegisterPage "Passwords do not match")) KeepCookie)
  /\ (forall msg, renderRegisterPage msg = renderRegisterPage "Passwords do not match" ->
                 msg = "Passwords do not match").
Proof.
  intros Hne. split.
  - by apply handleRegister_mismatch.
  - intros msg. apply renderRegisterPage_inj.
Qed.


(** C7: logout answers every request, with or without a session, by the
    redirect to [/login], deleting whatever the storage holds under the id
    of the request's session (the id of its cookie when that names a live
    session; nothing changes when the storage holds nothing under it); from
    then on, as long as no response issues that id again, every request to
    the dashboard that presents it is redirected to [/login]. *)
Theorem logout_destroys_session st env c :
  let st1 := fst (serve st env (mkRequest POST "/logout" c)) in
  serve st env (mkRequest POST "/logout" c)
    = (mkState (db st) (delete (token st env c) (store st)),
       mkResponse (Redirect "/login") ExpireCookie)
  /\ (forall d, live_session (store st) env c = Some d ->
        token st env c = Cookie c sessionName)
  /\ (store st !! token st env c = None -> st1 = st)
  /\ (forall reqs env' c',
        Cookie c' sessionName = token st env c ->
        never_issued (token st env c) st1 reqs ->
        serve (run st1 reqs) env' (mkRequest GET "/dashboard" c')
          = (run st1 reqs, mkResponse (Redirect "/login") KeepCookie)).
Proof.
  intros st1.
  assert (Hst1 : st1 = mkState (db st) (delete (token st env c) (store st))).
  { subst st1.
    change (serve st env (mkRequest POST "/logout" c)) with (handleLogout st env c).
    by rewrite handleLogout_eq. }
  split; [apply handleLogout_eq|]. split; [apply token_live|]. split.
  - intros Habs. rewrite Hst1, delete_id by done. by destruct st.
  - intros reqs env' c' Htok Hn.
    apply (dashboard_without_session _ env' c'), live_session_absent.
    rewrite Htok. apply run_keeps_absent; [|done].
    rewrite Hst1. apply lookup_delete_eq.
Qed.

(** C8, as the code has it: a registration with a valid form whose email is
    already stored is answered with [Email already registered] when the
    lookup before the insert goes through; when that lookup fails, the
    duplicate is caught (if at all) by the unique index at insert time and
    the answer is the generic [Registration failed], the page of every other
    failed insert.  The two pages differ, and the table is left unchanged. *)
Theorem duplicate_email_reported_by_lookup st env c u :
  valid_form c ->
  u ∈ db st -> Email u = FormValue c "email" ->
  (find_err env = false ->
     handleRegister st env c
       = (st, mkResponse (Html (renderRegisterPage "Email already registered"))
                         KeepCookie))
  /\ (find_err env = true ->
       handleRegister st env c
         = (st, mkResponse (Html (renderRegisterPage "Registration failed"))
                           KeepCookie))
  /\ renderRegisterPage "Email already registered"
       <> renderRegisterPage "Registration failed".
Proof.
  intros Hv Hin Hu. split; [|split].
  - intros Hf. by apply (handleRegister_duplicate st env c u).
  - intros Hf.
    destruct (GenerateFromPassword (entropy env) (FormValue c "password")
                DefaultCost) as [hash|] eqn:Hh.
    + apply (handleRegister_write_failure st env c hash
               (if create_err env then ErrStoreUnavailable
                else ErrUniqueConstraint)); try done.
      * unfold db_First. by rewrite Hf.
      * unfold db_Create. destruct (create_err env); [done|]. cbn [Email].
        by rewrite (existsb_known _ _ u Hin Hu).
    + destruct Hv as [He Hl]. unfold handleRegister, db_First.
      rewrite bool_decide_eq_true_2 by done. cbn [negb].
      apply Nat.ltb_ge in Hl as ->. by rewrite Hf, Hh.
  - intros E. by apply renderRegisterPage_inj in E.
Qed.

(** C9: while the server runs, whenever the route guard admits the session
    of a request (its [userID] is not nil), the [userEmail] read by the
    dashboard handler is a string, so the type assertion succeeds and the
    page is rendered; this rests on every stored session carrying both
    fields, set by login or registration from one row of the table. *)
Theorem dashboard_assertion_never_fails st env c sess :
  reachable st ->
  store_Get (store st) env c = Ok sess ->
  is_Some (sess_Get sess "userID") ->
  sessions_ok st
  /\ exists email,
       sess_Get sess "userEmail" = Some (VString email)
       /\ handleDashboard st env c = (st, respond (Html (renderDashboard email))).
Proof.
  intros Hreach Hget [v Hid].
  pose proof (reachable_sessions_ok st Hreach) as Hok. split; [done|].
  rewrite store_Get_Ok in Hget. injection Hget as <-.
  unfold sess_Get in *. cbn [sess_data] in *.
  destruct (loaded_session_of_user st env c v Hok Hid) as (u & _ & _ & Hemail).
  exists (Email u). split; [done|]. by apply handleDashboard_string.
Qed.

(** C10: at bootstrap, with the count and the insert going through and
    [hash] the bcrypt hash generated for the demo password, an empty table
    receives exactly the demo row and a table holding any row is left as it
    is; so a row is inserted if and only if the table was empty. *)
Theorem seedDemoUser_only_when_empty env rows hash :
  count_err env = false -> create_err env = false ->
  GenerateFromPassword (entropy env) demoPassword DefaultCost = Some hash ->
  (rows = [] -> seedDemoUser env rows = [demoUser hash (now env)])
  /\ (rows <> [] -> seedDemoUser env rows = rows)
  /\ (length (seedDemoUser env rows) = S (length rows) <-> rows = []).
Proof.
  intros Hc Hi Hh.
  assert (Hempty : rows = [] -> seedDemoUser env rows = [demoUser hash (now env)]).
  { intros ->. unfold seedDemoUser, db_Count, db_Create. by rewrite Hc, Hh, Hi. }
  assert (Hsome : rows <> [] -> seedDemoUser env rows = rows).
  { intros Hne. unfold seedDemoUser, db_Count. rewrite Hc.
    by destruct rows as [|u rows]. }
  split; [done|]. split; [done|]. split.
  - intros Hlen. destruct rows as [|u rows]; [done|].
    rewrite Hsome in Hlen by done. lia.
  - intros ->. by rewrite Hempty.
Qed.

End Properties.

(** * Further properties of the handlers *)

(** The sample server after a second registration, [c@d.org] under the
    session [tok2]. *)
Definition two_sessions_state : State :=
  fst (serve (hasher := sample_bcrypt) (sessions := sample_sessions)
         (pages := sample_templates) registered_state (quiet 11 "tok2")
         (mkRequest POST "/register"
            (register_form "c@d.org" "hunter22" "hunter22" EmptyString))).

Section Further.

Context `{hasher : Bcrypt} `{sessions : SessionLib} `{pages : Templates}.

(** ** Vocabulary *)

(** The two uniqueness constraints of the [users] table: the unique index on
    [Email] and the primary key [ID]. *)
Definition table_ok (rows : list User) : Prop :=
  NoDup (Email <$> rows) /\ NoDup (ID <$> rows).

(** What bcrypt promises: a generated hash verifies the password it was
    generated from. *)
Definition bcrypt_sound : Prop :=
  forall e password cost hash,
    GenerateFromPassword e password cost = Some hash ->
    CompareHashAndPassword hash password = true.

(** The messages [handleRegister] can render. *)
Definition registerMessages : list string :=
  ["Passwords do not match"; "Password must be at least 6 characters";
   "Email already registered"; "Registration failed"].

(** The clock of the session storage is a [uint32] count of seconds. *)
Definition in_uint32 (n : N) : Prop := (n < 2 ^ 32)%N.

Definition wrap32 (n : N) : N := (n mod 2 ^ 32)%N.

(** [sess.Save()] with the sum the storage computes, in 32 bits. *)
Definition sess_Save_uint32 (s : gmap string entry) (env : Env) (sess : Session)
  : gmap string entry :=
  <[sess_id sess := mkEntry (sess_data sess)
                      (wrap32 (wrap32 Expiration + wrap32 (now env)))]> s.

(** The opening tag of the error block. *)
Definition errorDivOpen : string :=
  "<div class=" +:+ dquote
  +:+ "error-shake bg-red-500/20 border border-red-500/50 text-red-200 px-4 py-3 rounded-xl mb-6 backdrop-blur-sm"
  +:+ dquote +:+ ">".

(** The payload a login or a registration for [u] writes over [d]. *)
Definition signed_in (u : User) (d : gmap string Value) : gmap string Value :=
  <["userEmail" := VString (Email u)]> (<["userID" := VUint (ID u)]> d).

(** ** Auxiliary facts *)

Lemma select_appended rows email u :
  unknown_email rows email -> Email u = email ->
  select_by_email (rows ++ [u]) email = Some u.
Proof.
  intros Hu He. unfold select_by_email.
  induction Hu as [|v rows Hv _ IH]; cbn.
  - unfold email_is. by rewrite bool_decide_eq_true_2.
  - unfold email_is at 1. by rewrite bool_decide_eq_false_2.
Qed.

Lemma next_id_not_used rows : next_id rows ∉ ID <$> rows.
Proof.
  intros Hin. apply list_elem_of_fmap in Hin as (v & Hv & Hin).
  pose proof (next_id_fresh rows) as Hf.
  eapply Forall_forall in Hf; [|exact Hin]. lia.
Qed.

Lemma db_Create_table_ok env rows u :
  table_ok rows -> table_ok (fst (db_Create env rows u)).
Proof.
  intros [He Hi]. split; [by apply db_Create_unique|].
  destruct (db_Create_cases env rows u)
    as [[e ->]|(u' & -> & _ & Hid & _)]; [done|].
  cbn. rewrite fmap_app. apply NoDup_app. split; [done|]. split.
  - intros x Hx Hx'. apply list_elem_of_singleton in Hx' as ->.
    cbn in Hx. rewrite Hid in Hx. by apply next_id_not_used in Hx.
  - apply NoDup_singleton.
Qed.

(** Until the 32-bit clock comes within a day of its rollover, [sess_Save]
    stores what the storage stores. *)
Lemma sess_Save_uint32_in_range s env sess :
  in_uint32 (Expiration + now env) ->
  sess_Save_uint32 s env sess = sess_Save s env sess.
Proof.
  unfold in_uint32, sess_Save_uint32, sess_Save, wrap32, Expiration.
  intros Hb. do 2 f_equal.
  rewrite (N.mod_small 86400), (N.mod_small (now env)), N.mod_small; lia.
Qed.

(** Within that last day the stored expiry has wrapped, and the session
    reads as expired at the very clock reading it was saved at. *)
Lemma sess_Save_uint32_rollover s env sess :
  in_uint32 (now env) -> ~ in_uint32 (Expiration + now env) ->
  (Expiration + now env <> 2 ^ 32)%N ->
  storage_Get (sess_Save_uint32 s env sess) (now env) (sess_id sess) = None.
Proof.
  unfold in_uint32, sess_Save_uint32, storage_Get, wrap32, Expiration.
  intros Hn Hb Hz. rewrite lookup_insert_eq. cbn [expiry].
  rewrite (N.mod_small 86400), (N.mod_small (now env)) by lia.
  assert (He : ((86400 + now env) mod 2 ^ 32 = 86400 + now env - 2 ^ 32)%N).
  { symmetry. apply (N.mod_unique _ _ 1); lia. }
  rewrite He.
  replace (86400 + now env - 2 ^ 32 =? 0)%N with false
    by (symmetry; apply N.eqb_neq; lia).
  replace (86400 + now env - 2 ^ 32 <=? now env)%N with true
    by (symmetry; apply N.leb_le; lia).
  done.
Qed.

(** A session saved at one clock reading and read at another. *)
Lemma live_session_saved s t d env env' c' :
  Cookie c' sessionName = t -> t <> EmptyString ->
  live_session (<[t := mkEntry d (Expiration + now env)]> s) env' c'
    = if (Expiration + now env <=? now env')%N then None else Some d.
Proof.
  intros Hc Ht. unfold live_session, storage_Get.
  rewrite Hc, bool_decide_eq_false_2 by done.
  rewrite lookup_insert_eq. cbn.
  replace (Expiration + now env =? 0)%N with false; [done|].
  symmetry. apply N.eqb_neq. unfold Expiration. lia.
Qed.

(** The answer of the guarded dashboard depends on the state only through
    the live session of the request. *)
Lemma dashboard_by_live_session st st' env c :
  live_session (store st) env c = live_session (store st') env c ->
  snd (authRequired handleDashboard st env c)
    = snd (authRequired handleDashboard st' env c).
Proof.
  intros Hl. unfold authRequired, handleDashboard, store_Get. rewrite Hl.
  destruct (live_session (store st') env c) as [d|]; cbn.
  - unfold sess_Get. cbn.
    destruct (d !! "userID"); [|done].
    by destruct (d !! "userEmail") as [[]|].
  - destruct (_ && _); unfold sess_Get; cbn; by rewrite lookup_empty.
Qed.

Lemma serve_GET st env r :
  method r = GET ->
  fst (serve st env r) = st /\ cookie (snd (serve st env r)) = KeepCookie.
Proof.
  destruct r as [m p c]. cbn. intros ->. unfold serve, route. cbn.
  repeat case_bool_decide; try done. apply guarded_dashboard_state.
Qed.

Lemma run_GET reqs : forall st,
  Forall (fun q => method (snd q) = GET) reqs -> run st reqs = st.
Proof.
  induction reqs as [|[env r] reqs IH]; intros st Hg; [done|].
  apply Forall_cons in Hg as [Hr Hg]. cbn in *.
  destruct (serve_GET st env r Hr) as [-> _]. by apply IH.
Qed.

Lemma handleRegister_db st env c :
  db (fst (handleRegister st env c)) = db st
  \/ exists u, db (fst (handleRegister st env c)) = fst (db_Create env (db st) u).
Proof.
  unfold handleRegister.
  destruct (negb _); [by left|].
  destruct (_ <? 6); [by left|].
  destruct (is_nil_error _); [by left|].
  destruct (GenerateFromPassword _ _ _) as [hash|]; [|by left].
  right. exists (mkUser 0 (FormValue c "email") EmptyString hash 0).
  destruct (db_Create _ _ _) as [rows [u|e]]; [|done].
  by rewrite store_Get_Ok.
Qed.

Lemma serve_db st env r :
  db (fst (serve st env r)) = db st
  \/ exists u, db (fst (serve st env r)) = fst (db_Create env (db st) u).
Proof.
  unfold serve, route. destruct r as [m p c]. cbn [method path ctx].
  destruct m; repeat case_bool_decide; try (by left).
  - left. by destruct (guarded_dashboard_state st env c) as [-> _].
  - left. by destruct (handleLogin_cases st env c) as [->|(u & _ & _ & _ & ->)].
  - apply handleRegister_db.
  - left. by rewrite handleLogout_eq.
Qed.

(** ** Login *)

(** X1: a login with the email of a stored user and a password bcrypt
    accepts is answered with the redirect to [/dashboard] and the session
    cookie; the table is untouched, and, the 32-bit clock of the storage not
    rolling over within the 24 hours of the session, a dashboard request
    presenting that cookie before the expiry is served the page of that
    user. *)
Theorem login_opens_dashboard st env c u env' c' :
  find_err env = false ->
  select_by_email (db st) (FormValue c "email") = Some u ->
  CompareHashAndPassword (Password u) (FormValue c "password") = true ->
  token st env c <> EmptyString ->
  Cookie c' sessionName = token st env c ->
  in_uint32 (Expiration + now env) ->
  (now env' < Expiration + now env)%N ->
  let st1 := fst (handleLogin st env c) in
  snd (handleLogin st env c)
    = mkResponse (Redirect "/dashboard") (SetCookie (token st env c))
  /\ db st1 = db st
  /\ store st1
      = sess_Save_uint32 (store st) env
          (mkSession (token st env c) (signed_in u (loaded st env c)))
  /\ serve st1 env' (mkRequest GET "/dashboard" c')
      = (st1, mkResponse (Html (renderDashboard (Email u))) KeepCookie).
Proof.
  intros Hf Hs Hc Ht Hc' Hb Hlt st1.
  destruct (handleLogin_cases st env c) as [Hfail|(v & _ & Hv & _ & Hok)].
  { exfalso. revert Hfail. unfold handleLogin, db_First.
    rewrite Hf, Hs, Hc, store_Get_Ok. cbn. intros [= _ Hr]. }
  rewrite Hs in Hv. injection Hv as <-.
  subst st1. rewrite Hok. cbn [fst snd db store]. repeat split.
  - by rewrite (sess_Save_uint32_in_range _ _ _ Hb).
  - eapply (dashboard_with_session _ env' c').
    + cbn [store]. unfold new_session.
      rewrite (live_session_saved _ _ _ env env' c' Hc' Ht).
      by apply N.leb_gt in Hlt as ->.
    + cbn. rewrite lookup_insert_ne by done. apply lookup_insert_eq.
    + cbn. apply lookup_insert_eq.
Qed.

(** X2: a login that presents a live session is saved under the very id the
    client sent: the id is not renewed, and the payload stored under it now
    names the user who logged in, over whatever it held before. *)
Theorem login_keeps_session_id st env c d u :
  live_session (store st) env c = Some d ->
  find_err env = false ->
  select_by_email (db st) (FormValue c "email") = Some u ->
  CompareHashAndPassword (Password u) (FormValue c "password") = true ->
  cookie (snd (handleLogin st env c)) = SetCookie (Cookie c sessionName)
  /\ live_session (store (fst (handleLogin st env c))) env c
      = Some (signed_in u d)
  /\ signed_in u d !! "userID" = Some (VUint (ID u))
  /\ signed_in u d !! "userEmail" = Some (VString (Email u))
  /\ (forall k, k <> "userID" -> k <> "userEmail" -> signed_in u d !! k = d !! k).
Proof.
  intros Hl Hf Hs Hc.
  assert (Hne : Cookie c sessionName <> EmptyString).
  { intros He. unfold live_session in Hl. by rewrite bool_decide_eq_true_2 in Hl. }
  unfold handleLogin, db_First. rewrite Hf, Hs, Hc, store_Get_Ok. cbn.
  rewrite (token_live st env c d Hl). unfold loaded. rewrite Hl. cbn.
  split; [done|]. split; [|split; [|split]].
  - rewrite (live_session_saved _ _ _ env env c eq_refl Hne).
    replace (Expiration + now env <=? now env)%N with false; [done|].
    symmetry. apply N.leb_gt. unfold Expiration. lia.
  - unfold signed_in. rewrite lookup_insert_ne by done. apply lookup_insert_eq.
  - unfold signed_in. apply lookup_insert_eq.
  - intros k H1 H2. unfold signed_in. by rewrite !lookup_insert_ne.
Qed.

(** ** Registration *)

(** X3: a registration either succeeds as a whole (redirect, session cookie,
    one appended row for the submitted email and a session stored for that
    row) or changes nothing at all: the state is the one before, no cookie
    is set and the register page carries one of the four messages. *)
Theorem register_all_or_nothing st env c :
  let st1 := fst (handleRegister st env c) in
  let resp := snd (handleRegister st env c) in
  (exists u,
     resp = mkResponse (Redirect "/dashboard") (SetCookie (token st env c))
     /\ db st1 = db st ++ [u]
     /\ Email u = FormValue c "email"
     /\ unknown_email (db st) (FormValue c "email")
     /\ store st1 = <[token st env c := new_session st env c u]> (store st))
  \/ (st1 = st
      /\ exists msg, msg ∈ registerMessages
           /\ resp = mkResponse (Html (renderRegisterPage msg)) KeepCookie).
Proof.
  unfold handleRegister, registerMessages. cbn zeta.
  destruct (negb _).
  { right. split; [done|]. eexists. split; [|done]. set_solver. }
  destruct (_ <? 6).
  { right. split; [done|]. eexists. split; [|done]. set_solver. }
  destruct (is_nil_error _).
  { right. split; [done|]. eexists. split; [|done]. set_solver. }
  destruct (GenerateFromPassword _ _ _) as [hash|].
  2:{ right. split; [done|]. eexists. split; [|done]. set_solver. }
  destruct (db_Create_cases env (db st)
              (mkUser 0 (FormValue c "email") EmptyString hash 0))
    as [[e ->]|(u & -> & He & Hid & Hu)].
  { right. split; [by destruct st|]. eexists. split; [|done]. set_solver. }
  left. exists u. rewrite store_Get_Ok. cbn in He, Hu |- *.
  repeat split; try done.
Qed.

(** X4: with a sound bcrypt, whoever registered can log in: after a valid
    registration of a new email, a login with the same email and password
    is answered with the redirect to [/dashboard], and the session saved for
    it carries the registered email. *)
Theorem register_then_login st env c env' c' :
  bcrypt_sound ->
  valid_registration (env, c) ->
  unknown_email (db st) (FormValue c "email") ->
  find_err env' = false ->
  FormValue c' "email" = FormValue c "email" ->
  FormValue c' "password" = FormValue c "password" ->
  let st1 := fst (handleRegister st env c) in
  let st2 := fst (handleLogin st1 env' c') in
  snd (handleLogin st1 env' c')
    = mkResponse (Redirect "/dashboard") (SetCookie (token st1 env' c'))
  /\ db st2 = db st1
  /\ exists d, storage_Get (store st2) (now env') (token st1 env' c') = Some d
       /\ d !! "userEmail" = Some (VString (FormValue c "email")).
Proof.
  intros Hsound (Hv & Hc & [hash Hh]) Hu Hf He Hp st1 st2. cbn in Hv, Hc, Hh.
  pose proof (handleRegister_success st env c hash Hv Hc Hu Hh) as Hreg.
  assert (Hdb : db st1 = db st ++ [new_user st env c hash]).
  { subst st1. by rewrite Hreg. }
  assert (Hs : select_by_email (db st1) (FormValue c' "email")
               = Some (new_user st env c hash)).
  { rewrite Hdb, He. by apply select_appended. }
  assert (Hlogin : handleLogin st1 env' c'
    = (mkState (db st1)
         (<[token st1 env' c' := new_session st1 env' c' (new_user st env c hash)]>
            (store st1)),
       mkResponse (Redirect "/dashboard") (SetCookie (token st1 env' c')))).
  { unfold handleLogin, db_First. rewrite Hf, Hs. cbn [Password new_user].
    rewrite Hp, (Hsound _ _ _ _ Hh), store_Get_Ok. done. }
  subst st2. rewrite Hlogin. cbn [fst snd db store]. repeat split.
  eexists. split; [apply storage_Get_saved|]. cbn. apply lookup_insert_eq.
Qed.

(** ** Sessions over time *)

(** X5: the expiry of a session is absolute.  After a valid registration at
    clock reading [t], with [t + 86400] still within the 32 bits of the
    storage's clock, and whatever GET requests are served in between, a
    dashboard request presenting the issued cookie is served the page of the
    registered email at every reading below [t + 86400] and is redirected
    to [/login] at every reading of the clock from [t + 86400] on: reading a
    session never renews it. *)
Theorem session_expiry_is_absolute st env c reqs env' c' :
  valid_registration (env, c) ->
  unknown_email (db st) (FormValue c "email") ->
  token st env c <> EmptyString ->
  Cookie c' sessionName = token st env c ->
  Forall (fun q => method (snd q) = GET) reqs ->
  in_uint32 (86400 + now env) ->
  in_uint32 (now env') ->
  let st1 := run (fst (handleRegister st env c)) reqs in
  ((now env' < 86400 + now env)%N ->
     serve st1 env' (mkRequest GET "/dashboard" c')
       = (st1, mkResponse (Html (renderDashboard (FormValue c "email"))) KeepCookie))
  /\ ((86400 + now env <= now env')%N ->
      serve st1 env' (mkRequest GET "/dashboard" c')
        = (st1, mkResponse (Redirect "/login") KeepCookie))
  /\ (exists u,
        store (fst (handleRegister st env c))
          = sess_Save_uint32 (store st) env
              (mkSession (token st env c) (signed_in u (loaded st env c)))).
Proof.
  intros (Hv & Hc & [hash Hh]) Hu Ht Hc' Hget Hb _ st1. cbn in Hv, Hc, Hh.
  subst st1. rewrite (run_GET reqs _ Hget).
  rewrite (handleRegister_success st env c hash Hv Hc Hu Hh). cbn [fst].
  set (st1 := mkState _ _).
  assert (Hl : live_session (store st1) env' c'
               = if (Expiration + now env <=? now env')%N then None
                 else Some (payload (new_session st env c (new_user st env c hash)))).
  { subst st1. cbn [store]. unfold new_session.
    by rewrite (live_session_saved _ _ _ env env' c' Hc' Ht). }
  change 86400%N with Expiration in *. split; [|split].
  - intros Hlt. apply N.leb_gt in Hlt. rewrite Hlt in Hl.
    eapply (dashboard_with_session st1 env' c' _ _ _ Hl).
    + cbn. rewrite lookup_insert_ne by done. apply lookup_insert_eq.
    + cbn. apply lookup_insert_eq.
  - intros Hle. apply N.leb_le in Hle. rewrite Hle in Hl.
    by apply (dashboard_without_session st1 env' c').
  - exists (new_user st env c hash). subst st1. cbn [store].
    by rewrite (sess_Save_uint32_in_range _ _ _ Hb).
Qed.

(** X6: GET requests are read-only.  Whatever the paths, the cookies and the
    state, a run of GET requests leaves the table and the session storage as
    they were, and none of its responses touches the session cookie; in
    particular no GET request logs anybody out. *)
Theorem get_requests_change_nothing st reqs :
  Forall (fun q => method (snd q) = GET) reqs ->
  run st reqs = st
  /\ Forall (fun q => fst (serve st (fst q) (snd q)) = st
                      /\ cookie (snd (serve st (fst q) (snd q))) = KeepCookie) reqs.
Proof.
  intros Hget. split; [by apply run_GET|].
  eapply Forall_impl; [exact Hget|]. intros [env r] Hr. by apply serve_GET.
Qed.

(** X7: a response sets the session cookie only when a POST request has
    authenticated or registered a user: it is then the redirect to
    [/dashboard], and the storage holds under the id of the cookie a session
    of a user of the table. *)
Theorem session_cookie_only_on_success st env r id :
  cookie (snd (serve st env r)) = SetCookie id ->
  method r = POST
  /\ (path r = "/login" \/ path r = "/register")
  /\ reply (snd (serve st env r)) = Redirect "/dashboard"
  /\ exists u, u ∈ db (fst (serve st env r))
       /\ store (fst (serve st env r)) !! id
           = Some (new_session st env (ctx r) u).
Proof.
  unfold serve, route. destruct r as [m p c]. cbn [method path ctx].
  destruct m; repeat case_bool_decide; subst; try done.
  - by destruct (guarded_dashboard_state st env c) as [_ ->].
  - destruct (handleLogin_cases st env c) as [->|(u & Hu & _ & _ & ->)]; [done|].
    cbn. intros [= <-]. repeat split; [by left|].
    exists u. split; [done|]. apply lookup_insert_eq.
  - destruct (handleRegister_cases st env c) as [(_ & -> & _)|(hash & ->)]; [done|].
    cbn. intros [= <-]. repeat split; [by right|].
    eexists. split; [|apply lookup_insert_eq].
    apply elem_of_app. right. by apply list_elem_of_singleton.
  - by rewrite handleLogout_eq.
Qed.

(** X8: logging one session out leaves the others alone: the table is
    unchanged, every other session id resolves as before, and a dashboard
    request presenting another cookie gets the answer it would have got. *)
Theorem logout_spares_other_sessions st env c env' c' :
  Cookie c' sessionName <> token st env c ->
  let st1 := fst (handleLogout st env c) in
  db st1 = db st
  /\ live_session (store st1) env' c' = live_session (store st) env' c'
  /\ snd (serve st1 env' (mkRequest GET "/dashboard" c'))
      = snd (serve st env' (mkRequest GET "/dashboard" c')).
Proof.
  intros Hne st1. subst st1. rewrite handleLogout_eq. cbn [fst db].
  assert (Hl : live_session (delete (token st env c) (store st)) env' c'
               = live_session (store st) env' c').
  { unfold live_session, storage_Get. by rewrite lookup_delete_ne. }
  split; [done|]. split; [done|].
  by apply (dashboard_by_live_session _ st env' c').
Qed.

(** X14: the guard redirects exactly the requests the dashboard handler
    cannot serve.  While the server runs, [handleDashboard] called on its
    own panics (its type assertion meets nil) exactly when the request has
    no live session, and that is exactly when [authRequired] answers with
    the redirect instead of calling it. *)
Theorem guard_covers_the_assertion st env c :
  reachable st ->
  (live_session (store st) env c = None
   <-> reply (snd (handleDashboard st env c)) = Panic)
  /\ (live_session (store st) env c = None
      <-> reply (snd (authRequired handleDashboard st env c)) = Redirect "/login").
Proof.
  intros Hreach. pose proof (reachable_sessions_ok st Hreach) as Hok.
  destruct (live_session (store st) env c) as [d|] eqn:Hl.
  - destruct (live_session_stored _ _ _ _ Hl) as (e & He & <-).
    destruct (Hok _ _ He) as (u & _ & Hid & Hemail).
    rewrite (dashboard_with_session st env c _ _ _ Hl Hid Hemail).
    rewrite (handleDashboard_string st env c (Email u)).
    + by split; split.
    + unfold loaded. by rewrite Hl.
  - rewrite (dashboard_without_session st env c Hl).
    unfold handleDashboard. rewrite store_Get_Ok.
    unfold sess_Get, loaded. cbn [sess_data]. rewrite Hl. cbn.
    rewrite lookup_empty. by split; split.
Qed.

(** ** The table *)

(** X9: the constraints of the table hold throughout: started on a table
    whose emails and identifiers are pairwise distinct, the server keeps
    them pairwise distinct through the seed and through every run of
    requests, whatever fails on the way. *)
Theorem table_constraints_hold env rows reqs :
  table_ok rows -> table_ok (db (run (boot env rows) reqs)).
Proof.
  intros Hok.
  assert (Hboot : table_ok (db (boot env rows))).
  { cbn. unfold seedDemoUser. destruct (_ =? 0)%N; [|done].
    by apply db_Create_table_ok. }
  revert Hboot. generalize (boot env rows). clear Hok.
  induction reqs as [|[env' r] reqs IH]; intros st Hst; [done|].
  cbn. apply IH.
  destruct (serve_db st env' r) as [->|[u ->]]; [done|].
  by apply db_Create_table_ok.
Qed.

(** X10: no request removes or alters a user: the table before a run is a
    prefix of the table after it, so every stored row, with its identifier,
    email and password hash, is still there. *)
Theorem users_are_never_removed st reqs :
  db st `prefix_of` db (run st reqs)
  /\ (forall u, u ∈ db st -> u ∈ db (run st reqs))
  /\ length (db st) <= length (db (run st reqs)).
Proof.
  assert (Hp : db st `prefix_of` db (run st reqs)).
  { revert st. induction reqs as [|[env r] reqs IH]; intros st; [done|].
    cbn. etrans; [|apply IH].
    destruct (serve_db st env r) as [->|[u ->]]; [done|].
    destruct (db_Create_cases env (db st) u) as [[e ->]|(u' & -> & _)]; [done|].
    by apply prefix_app_r. }
  split; [done|]. split.
  - intros u Hu. destruct Hp as [l ->]. apply elem_of_app. by left.
  - by apply prefix_length.
Qed.

(** ** The demo seed, whatever fails *)

(** X11: [seedDemoUser] drops the errors of its three calls.  Whatever
    fails, it leaves the table as it is or appends one row for
    [demo@glassauth.io], and the latter only to a table without that email
    that is empty or could not be counted; the password of the row is the
    generated hash, or empty when the generation failed.  It keeps the
    constraints of the table, and run again on a non-empty result that it
    can count it changes nothing. *)
Theorem seedDemoUser_appends_at_most_demo env rows :
  (seedDemoUser env rows = rows
   \/ exists u, seedDemoUser env rows = rows ++ [u]
        /\ Email u = demoEmail
        /\ Password u
            = default EmptyString
                (GenerateFromPassword (entropy env) demoPassword DefaultCost)
        /\ unknown_email rows demoEmail
        /\ (rows = [] \/ count_err env = true))
  /\ (table_ok rows -> table_ok (seedDemoUser env rows))
  /\ (forall env2, count_err env2 = false -> seedDemoUser env rows <> [] ->
        seedDemoUser env2 (seedDemoUser env rows) = seedDemoUser env rows).
Proof.
  split; [|split].
  - unfold seedDemoUser, db_Count.
    destruct (count_err env) eqn:Hc; cbn.
    + destruct (db_Create_cases env rows
                  (mkUser 0 demoEmail "+1 (555) 987-6543"
                     (default EmptyString
                        (GenerateFromPassword (entropy env) demoPassword DefaultCost)) 0))
        as [[e ->]|(u & Hcr & He & _ & Hu)]; [by left|].
      right. exists u. rewrite Hcr. cbn in He, Hu |- *. repeat split; try done.
      * revert Hcr. unfold db_Create. destruct (create_err env); [done|].
        destruct (existsb _ _); [done|]. by intros [= _ <-].
      * by right.
    + destruct rows as [|v rows]; [|by left]. cbn.
      destruct (db_Create_cases env []
                  (mkUser 0 demoEmail "+1 (555) 987-6543"
                     (default EmptyString
                        (GenerateFromPassword (entropy env) demoPassword DefaultCost)) 0))
        as [[e ->]|(u & Hcr & He & _ & Hu)]; [by left|].
      right. exists u. rewrite Hcr. cbn in He, Hu |- *. repeat split; try done.
      * revert Hcr. unfold db_Create. destruct (create_err env); [done|].
        cbn. by intros [= <-].
      * by left.
  - intros Hok. unfold seedDemoUser. destruct (_ =? 0)%N; [|done].
    by apply db_Create_table_ok.
  - intros env2 Hc2 Hne. unfold seedDemoUser at 1. unfold db_Count. rewrite Hc2.
    by destruct (seedDemoUser env rows).
Qed.

(** X12: the demo credentials work.  On a fresh auth.db, with the count, the
    hash and the insert of the seed succeeding and a sound bcrypt, a login
    with [demo@glassauth.io] and [demo2024] is answered with the redirect to
    [/dashboard] and a session of the demo user. *)
Theorem demo_account_can_log_in env env' c :
  bcrypt_sound ->
  count_err env = false -> create_err env = false ->
  is_Some (GenerateFromPassword (entropy env) demoPassword DefaultCost) ->
  find_err env' = false ->
  FormValue c "email" = demoEmail ->
  FormValue c "password" = demoPassword ->
  let st := boot env [] in
  snd (handleLogin st env' c)
    = mkResponse (Redirect "/dashboard") (SetCookie (token st env' c))
  /\ exists d,
       storage_Get (store (fst (handleLogin st env' c))) (now env') (token st env' c)
         = Some d
       /\ d !! "userEmail" = Some (VString demoEmail).
Proof.
  intros Hsound Hc Hi [hash Hh] Hf He Hp st.
  assert (Hdb : db st = [demoUser hash (now env)]).
  { subst st. cbn. unfold seedDemoUser, db_Count, db_Create.
    by rewrite Hc, Hh, Hi. }
  assert (Hs : select_by_email (db st) demoEmail = Some (demoUser hash (now env))).
  { by rewrite Hdb. }
  unfold handleLogin, db_First. rewrite Hf, He, Hs, Hp.
  cbn [Password demoUser].
  rewrite (Hsound _ _ _ _ Hh), store_Get_Ok. cbn. split; [done|].
  eexists. split; [apply storage_Get_saved|]. cbn. apply lookup_insert_eq.
Qed.

(** ** Pages *)

Lemma append_assoc (s t u : string) : (s +:+ t) +:+ u = s +:+ t +:+ u.
Proof.
  induction s as [|a s IH]; [done|]. rewrite !append_cons. by rewrite IH.
Qed.

Lemma errorDiv_open msg : errorDiv msg = errorDivOpen +:+ msg +:+ "</div>".
Proof. unfold errorDiv, errorDivOpen. by rewrite !append_assoc. Qed.

(** X13: the pages tell their messages apart.  Two messages render to the
    same login (register) page only if they are the same message; a
    non-empty message appears in its page verbatim, unescaped; and the form
    served by GET [/login] and GET [/register], which carries no message,
    differs from every page that carries one. *)
Theorem pages_tell_messages_apart msg1 msg2 :
  (renderLoginPage msg1 = renderLoginPage msg2 <-> msg1 = msg2)
  /\ (renderRegisterPage msg1 = renderRegisterPage msg2 <-> msg1 = msg2)
  /\ (msg1 <> EmptyString ->
      contains (renderLoginPage msg1) msg1
      /\ contains (renderRegisterPage msg1) msg1
      /\ forall st env c,
           snd (handleLoginPage st env c) <> respond (Html (renderLoginPage msg1))
           /\ snd (handleRegisterPage st env c)
                <> respond (Html (renderRegisterPage msg1))).
Proof.
  split; [|split].
  - split; [apply renderLoginPage_inj | by intros ->].
  - split; [apply renderRegisterPage_inj | by intros ->].
  - intros Hne. split; [|split].
    + unfold contains, renderLoginPage.
      rewrite bool_decide_eq_false_2 by done.
      exists (loginPageHead +:+ errorDivOpen), ("</div>" +:+ loginPageTail).
      by rewrite errorDiv_open, !append_assoc.
    + unfold contains, renderRegisterPage.
      rewrite bool_decide_eq_false_2 by done.
      exists (registerPageHead +:+ errorDivOpen), ("</div>" +:+ registerPageTail).
      by rewrite errorDiv_open, !append_assoc.
    + intros st env c. unfold handleLoginPage, handleRegisterPage, respond. cbn.
      split; intros [= E]; [apply renderLoginPage_inj in E
                           |apply renderRegisterPage_inj in E]; by apply Hne.
Qed.

End Further.
(** * The properties at concrete requests *)

#[local] Existing Instance sample_bcrypt.
#[local] Existing Instance sample_sessions.
#[local] Existing Instance sample_templates.

Lemma registered_state_reachable : reachable registered_state.
Proof. apply reachable_serve, reachable_boot. Qed.

Lemma login_failures_indistinguishable_witness :
  let c1 := login_form "nobody@glassauth.io" "demo2024" EmptyString in
  let c2 := login_form "demo@glassauth.io" "demo2025" EmptyString in
  snd (handleLogin sample_state (quiet 5 "k1") c1)
    = snd (handleLogin sample_state (quiet 6 "k2") c2)
  /\ snd (handleLogin sample_state (quiet 5 "k1") c1)
      = mkResponse (Html (renderLoginPage "Invalid credentials")) KeepCookie
  /\ fst (handleLogin sample_state (quiet 5 "k1") c1) = sample_state
  /\ fst (handleLogin sample_state (quiet 6 "k2") c2) = sample_state.
Proof.
  apply (login_failures_indistinguishable sample_state (quiet 5 "k1") _
           sample_state (quiet 6 "k2") _ (demoUser "$2a$10$demo2024" 0)).
  - repeat constructor. vm_compute. discriminate.
  - reflexivity.
  - reflexivity.
Defined.


Lemma dashboard_requires_live_session_witness :
  exists u, u ∈ db registered_state
    /\ Email u = "a@b.com"
    /\ serve registered_state (quiet 20 "k3") (mkRequest GET "/dashboard" (form [] "tok1"))
        = (registered_state, mkResponse (Html (renderDashboard (Email u))) KeepCookie)
    /\ contains (renderDashboard (Email u)) (Email u).
Proof.
  destruct (proj2 (dashboard_requires_live_session registered_state (quiet 20 "k3")
                     (form [] "tok1"))
              registered_state_reachable _ eq_refl)
    as (u & Hu & Hid & Hemail & Hserve & Hcontains).
  exists u. split; [done|]. split; [|done].
  change (Some (VString "a@b.com") = Some (VString (Email u))) in Hemail.
  by injection Hemail.
Defined.

Lemma register_valid_succeeds_witness :
  all_registered sample_state
    [(quiet 10 "tok1", register_form "a@b.com" "secret6" "secret6" EmptyString);
     (quiet 11 "tok2", register_form "c@d.org" "hunter22" "hunter22" EmptyString)].
Proof.
  apply register_valid_succeeds.
  - repeat constructor; try (vm_compute; lia); eexists; reflexivity.
  - repeat constructor; vm_compute; discriminate.
  - cbn. apply NoDup_cons. split; [|apply NoDup_singleton].
    intros Hin. apply list_elem_of_singleton in Hin. discriminate Hin.
Defined.

Lemma register_mismatch_no_write_witness :
  let c := register_form "a@b.com" "secret6" "secret7" EmptyString in
  handleRegister sample_state (quiet 10 "tok1") c
    = (sample_state,
       mkResponse (Html (renderRegisterPage "Passwords do not match")) KeepCookie)
  /\ (forall msg, renderRegisterPage msg = renderRegisterPage "Passwords do not match" ->
                 msg = "Passwords do not match").
Proof.
  apply (register_mismatch_no_write sample_state (quiet 10 "tok1")).
  vm_compute. discriminate.
Defined.


Lemma logout_destroys_session_witness :
  let c := form [] "tok1" in
  let st1 := fst (serve registered_state (quiet 30 "k4") (mkRequest POST "/logout" c)) in
  let reqs :=
    [(quiet 31 "k5", mkRequest POST "/login" (login_form "a@b.com" "wrong" "tok1"));
     (quiet 32 "tok9", mkRequest POST "/login" (login_form "a@b.com" "secret6" EmptyString));
     (quiet 33 "k6", mkRequest GET "/dashboard" (form [] "tok9"))] in
  serve (run st1 reqs) (quiet 40 "k7") (mkRequest GET "/dashboard" c)
    = (run st1 reqs, mkResponse (Redirect "/login") KeepCookie).
Proof.
  apply (proj2 (proj2 (proj2 (logout_destroys_session registered_state
                                (quiet 30 "k4") (form [] "tok1"))))).
  - reflexivity.
  - repeat split; vm_compute; discriminate.
Defined.

Lemma dashboard_assertion_never_fails_witness :
  let c := form [] "tok1" in
  let env := quiet 20 "k3" in
  let sess := mkSession (token registered_state env c) (loaded registered_state env c) in
  sessions_ok registered_state
  /\ exists email,
       sess_Get sess "userEmail" = Some (VString email)
       /\ handleDashboard registered_state env c
           = (registered_state, respond (Html (renderDashboard email))).
Proof.
  apply (dashboard_assertion_never_fails registered_state (quiet 20 "k3")
           (form [] "tok1")).
  - exact registered_state_reachable.
  - apply store_Get_Ok.
  - eexists. reflexivity.
Defined.

Lemma seedDemoUser_only_when_empty_witness :
  let env := quiet 0 "k0" in
  let hash := "$2a$10$demo2024" in
  (@nil User = [] -> seedDemoUser env [] = [demoUser hash (now env)])
  /\ (@nil User <> [] -> seedDemoUser env [] = [])
  /\ (length (seedDemoUser env []) = S (length (@nil User)) <-> @nil User = []).
Proof.
  apply (seedDemoUser_only_when_empty (quiet 0 "k0") [] "$2a$10$demo2024");
    reflexivity.
Defined.

Lemma duplicate_email_reported_by_lookup_witness :
  let c := register_form "a@b.com" "another7" "another7" EmptyString in
  let env := quiet 50 "k8" in
  (find_err env = false ->
     handleRegister registered_state env c
       = (registered_state,
          mkResponse (Html (renderRegisterPage "Email already registered")) KeepCookie))
  /\ (find_err env = true ->
       handleRegister registered_state env c
         = (registered_state,
            mkResponse (Html (renderRegisterPage "Registration failed")) KeepCookie))
  /\ renderRegisterPage "Email already registered"
       <> renderRegisterPage "Registration failed".
Proof.
  apply (duplicate_email_reported_by_lookup registered_state (quiet 50 "k8") _
           (mkUser 2 "a@b.com" EmptyString "$2a$10$secret6" 10)).
  - split; [reflexivity | vm_compute; lia].
  - vm_compute. set_solver.
  - reflexivity.
Defined.

(** C8 as stated fails: [a@b.com] is stored, the lookup of the request
    fails, the unique index rejects the insert, and the caller is answered
    [Registration failed], the very response given for a new email whose
    insert fails for another reason; it is not the duplicate-email page. *)
Lemma duplicate_at_insert_reported_as_generic :
  let dup := register_form "a@b.com" "another7" "another7" EmptyString in
  let new := register_form "new@b.com" "another7" "another7" EmptyString in
  (exists u, u ∈ db registered_state /\ Email u = FormValue dup "email")
  /\ valid_form dup
  /\ snd (db_Create (lookup_fails 50 "k8") (db registered_state)
            (mkUser 0 "a@b.com" EmptyString "$2a$10$another7" 0))
      = Err ErrUniqueConstraint
  /\ snd (handleRegister registered_state (lookup_fails 50 "k8") dup)
      = mkResponse (Html (renderRegisterPage "Registration failed")) KeepCookie
  /\ snd (handleRegister registered_state (insert_fails 50 "k8") new)
      = snd (handleRegister registered_state (lookup_fails 50 "k8") dup)
  /\ snd (handleRegister registered_state (lookup_fails 50 "k8") dup)
      <> mkResponse (Html (renderRegisterPage "Email already registered")) KeepCookie.
Proof.
  repeat split; try reflexivity.
  - exists (mkUser 2 "a@b.com" EmptyString "$2a$10$secret6" 10).
    split; [vm_compute; set_solver | reflexivity].
  - vm_compute. lia.
  - vm_compute. discriminate.
Defined.


(** * The further properties at concrete requests *)

Lemma sample_bcrypt_sound : bcrypt_sound.
Proof.
  intros e password cost hash Hg.
  unfold GenerateFromPassword, CompareHashAndPassword, sample_bcrypt in *.
  destruct (72 <? String.length password); [discriminate Hg|].
  injection Hg as <-. by apply bool_decide_eq_true.
Qed.

Lemma login_opens_dashboard_witness :
  let c := login_form "a@b.com" "secret6" EmptyString in
  let u := mkUser 2 "a@b.com" EmptyString "$2a$10$secret6" 10 in
  let st1 := fst (handleLogin registered_state (quiet 20 "tok3") c) in
  snd (handleLogin registered_state (quiet 20 "tok3") c)
    = mkResponse (Redirect "/dashboard") (SetCookie "tok3")
  /\ db st1 = db registered_state
  /\ store st1
      = sess_Save_uint32 (store registered_state) (quiet 20 "tok3")
          (mkSession "tok3" (signed_in u ∅))
  /\ serve st1 (quiet 86419 "k") (mkRequest GET "/dashboard" (form [] "tok3"))
      = (st1, mkResponse (Html (renderDashboard "a@b.com")) KeepCookie).
Proof.
  apply (login_opens_dashboard registered_state (quiet 20 "tok3")
           (login_form "a@b.com" "secret6" EmptyString)
           (mkUser 2 "a@b.com" EmptyString "$2a$10$secret6" 10)
           (quiet 86419 "k") (form [] "tok3")).
  - reflexivity.
  - reflexivity.
  - reflexivity.
  - vm_compute. discriminate.
  - reflexivity.
  - vm_compute. reflexivity.
  - vm_compute. reflexivity.
Defined.

Lemma login_keeps_session_id_witness :
  let c := login_form "demo@glassauth.io" "demo2024" "tok1" in
  cookie (snd (handleLogin registered_state (quiet 20 "k") c)) = SetCookie "tok1".
Proof.
  exact (proj1 (login_keeps_session_id registered_state (quiet 20 "k")
                  (login_form "demo@glassauth.io" "demo2024" "tok1")
                  _ (demoUser "$2a$10$demo2024" 0)
                  eq_refl eq_refl eq_refl eq_refl)).
Defined.

Lemma register_then_login_witness :
  let c := register_form "a@b.com" "secret6" "secret6" EmptyString in
  let c' := login_form "a@b.com" "secret6" EmptyString in
  let st1 := fst (handleRegister sample_state (quiet 10 "tok1") c) in
  let st2 := fst (handleLogin st1 (quiet 20 "tok3") c') in
  snd (handleLogin st1 (quiet 20 "tok3") c')
    = mkResponse (Redirect "/dashboard") (SetCookie (token st1 (quiet 20 "tok3") c'))
  /\ db st2 = db st1
  /\ exists d,
       storage_Get (store st2) (now (quiet 20 "tok3")) (token st1 (quiet 20 "tok3") c')
         = Some d
       /\ d !! "userEmail" = Some (VString (FormValue c "email")).
Proof.
  apply (register_then_login sample_state (quiet 10 "tok1") _ (quiet 20 "tok3") _).
  - exact sample_bcrypt_sound.
  - split; [split; [reflexivity | vm_compute; lia]|].
    split; [reflexivity | eexists; reflexivity].
  - repeat constructor. vm_compute. discriminate.
  - reflexivity.
  - reflexivity.
  - reflexivity.
Defined.

Lemma session_expiry_is_absolute_witness :
  let c := register_form "a@b.com" "secret6" "secret6" EmptyString in
  let reqs :=
    [(quiet 100 "k1", mkRequest GET "/dashboard" (form [] "tok1"));
     (quiet 50000 "k2", mkRequest GET "/login" (form [] "tok1"))] in
  let st1 := run (fst (handleRegister sample_state (quiet 10 "tok1") c)) reqs in
  serve st1 (quiet 86409 "k3") (mkRequest GET "/dashboard" (form [] "tok1"))
    = (st1, mkResponse (Html (renderDashboard "a@b.com")) KeepCookie)
  /\ serve st1 (quiet 86410 "k3") (mkRequest GET "/dashboard" (form [] "tok1"))
      = (st1, mkResponse (Redirect "/login") KeepCookie).
Proof.
  split.
  - apply (proj1 (session_expiry_is_absolute sample_state (quiet 10 "tok1")
             (register_form "a@b.com" "secret6" "secret6" EmptyString)
             [(quiet 100 "k1", mkRequest GET "/dashboard" (form [] "tok1"));
              (quiet 50000 "k2", mkRequest GET "/login" (form [] "tok1"))]
             (quiet 86409 "k3") (form [] "tok1")
             ltac:(split; [split; [reflexivity | vm_compute; lia]|];
                   split; [reflexivity | eexists; reflexivity])
             ltac:(repeat constructor; vm_compute; discriminate)
             ltac:(vm_compute; discriminate)
             eq_refl
             ltac:(repeat constructor)
             eq_refl eq_refl)).
    reflexivity.
  - apply (proj1 (proj2 (session_expiry_is_absolute sample_state (quiet 10 "tok1")
             (register_form "a@b.com" "secret6" "secret6" EmptyString)
             [(quiet 100 "k1", mkRequest GET "/dashboard" (form [] "tok1"));
              (quiet 50000 "k2", mkRequest GET "/login" (form [] "tok1"))]
             (quiet 86410 "k3") (form [] "tok1")
             ltac:(split; [split; [reflexivity | vm_compute; lia]|];
                   split; [reflexivity | eexists; reflexivity])
             ltac:(repeat constructor; vm_compute; discriminate)
             ltac:(vm_compute; discriminate)
             eq_refl
             ltac:(repeat constructor)
             eq_refl eq_refl))).
    vm_compute. discriminate.
Defined.

Lemma get_requests_change_nothing_witness :
  let reqs :=
    [(quiet 20 "k1", mkRequest GET "/logout" (form [] "tok1"));
     (quiet 21 "k2", mkRequest GET "/dashboard" (form [] "tok1"));
     (quiet 22 "k3", mkRequest GET "/" (form [] EmptyString))] in
  run registered_state reqs = registered_state
  /\ Forall (fun q => fst (serve registered_state (fst q) (snd q)) = registered_state
                      /\ cookie (snd (serve registered_state (fst q) (snd q)))
                         = KeepCookie) reqs.
Proof.
  apply get_requests_change_nothing. repeat constructor.
Defined.

Lemma session_cookie_only_on_success_witness :
  let r := mkRequest POST "/register"
             (register_form "a@b.com" "secret6" "secret6" EmptyString) in
  method r = POST
  /\ (path r = "/login" \/ path r = "/register")
  /\ reply (snd (serve sample_state (quiet 10 "tok1") r)) = Redirect "/dashboard"
  /\ exists u, u ∈ db (fst (serve sample_state (quiet 10 "tok1") r))
       /\ store (fst (serve sample_state (quiet 10 "tok1") r)) !! "tok1"
           = Some (new_session sample_state (quiet 10 "tok1") (ctx r) u).
Proof.
  apply (session_cookie_only_on_success sample_state (quiet 10 "tok1")).
  reflexivity.
Defined.

Lemma logout_spares_other_sessions_witness :
  let c := form [] "tok1" in
  let c' := form [] "tok2" in
  let st1 := fst (handleLogout two_sessions_state (quiet 30 "k") c) in
  db st1 = db two_sessions_state
  /\ live_session (store st1) (quiet 31 "k") c'
      = live_session (store two_sessions_state) (quiet 31 "k") c'
  /\ snd (serve st1 (quiet 31 "k") (mkRequest GET "/dashboard" c'))
      = snd (serve two_sessions_state (quiet 31 "k") (mkRequest GET "/dashboard" c')).
Proof.
  apply (logout_spares_other_sessions two_sessions_state (quiet 30 "k")
           (form [] "tok1") (quiet 31 "k") (form [] "tok2")).
  vm_compute. discriminate.
Defined.

Lemma table_constraints_hold_witness :
  table_ok
    (db (run (boot (quiet 0 "k0") [])
           [(quiet 10 "tok1", mkRequest POST "/register"
               (register_form "a@b.com" "secret6" "secret6" EmptyString));
            (quiet 11 "tok2", mkRequest POST "/register"
               (register_form "a@b.com" "another7" "another7" EmptyString))])).
Proof.
  apply table_constraints_hold. split; apply NoDup_nil_2.
Defined.

Lemma demo_account_can_log_in_witness :
  let c := login_form "demo@glassauth.io" "demo2024" EmptyString in
  let st := boot (quiet 0 "k0") [] in
  snd (handleLogin st (quiet 5 "tok0") c)
    = mkResponse (Redirect "/dashboard") (SetCookie (token st (quiet 5 "tok0") c))
  /\ exists d,
       storage_Get (store (fst (handleLogin st (quiet 5 "tok0") c)))
         (now (quiet 5 "tok0")) (token st (quiet 5 "tok0") c) = Some d
       /\ d !! "userEmail" = Some (VString demoEmail).
Proof.
  apply (demo_account_can_log_in (quiet 0 "k0") (quiet 5 "tok0")).
  - exact sample_bcrypt_sound.
  - reflexivity.
  - reflexivity.
  - eexists. reflexivity.
  - reflexivity.
  - reflexivity.
  - reflexivity.
Defined.

Lemma guard_covers_the_assertion_witness :
  let c := form [] "tok7" in
  let env := quiet 20 "k" in
  (live_session (store registered_state) env c = None
   <-> reply (snd (handleDashboard registered_state env c)) = Panic)
  /\ (live_session (store registered_state) env c = None
      <-> reply (snd (authRequired handleDashboard registered_state env c))
          = Redirect "/login").
Proof.
  apply (guard_covers_the_assertion registered_state (quiet 20 "k") (form [] "tok7")).
  exact registered_state_reachable.
Defined.
